(** * A shallow embedding of [start_phylobayes.py] (the PBStarter class)

    Strings are Stdlib [string]s; a character stands for a code point below
    256, so the whitespace and line-break sets of Python's [str] methods are
    written out for that range.  Integers are [Z]; the float thresholds and
    parsed report values are rationals [Q]. *)

From Stdlib Require Import String Ascii ZArith List Bool QArith Lia.
Import ListNotations.

Open Scope Z_scope.
Set Warnings "-abstract-large-number".

(** ** Python string primitives *)

Definition chr (n : nat) : ascii := ascii_of_nat n.

(** [str.isspace] for a single code point below 256. *)
Definition is_space (c : ascii) : bool :=
  let n := nat_of_ascii c in
  ((9 <=? n)%nat && (n <=? 13)%nat) || ((28 <=? n)%nat && (n <=? 32)%nat)
  || (n =? 133)%nat || (n =? 160)%nat.

(** Line boundaries of [str.splitlines] (besides ["\r\n"]). *)
Definition is_line_break (c : ascii) : bool :=
  let n := nat_of_ascii c in
  ((10 <=? n)%nat && (n <=? 13)%nat) || ((28 <=? n)%nat && (n <=? 30)%nat)
  || (n =? 133)%nat.

Definition LF : ascii := chr 10.
Definition CR : ascii := chr 13.

Fixpoint drop_while (p : ascii -> bool) (l : list ascii) : list ascii :=
  match l with
  | [] => []
  | c :: t => if p c then drop_while p t else l
  end.

Fixpoint take_while (p : ascii -> bool) (l : list ascii) : list ascii :=
  match l with
  | [] => []
  | c :: t => if p c then c :: take_while p t else []
  end.

Definition chars (s : string) : list ascii := list_ascii_of_string s.
Definition of_chars (l : list ascii) : string := string_of_list_ascii l.

(** [s.rstrip()] *)
Definition rstrip (s : string) : string :=
  of_chars (rev (drop_while is_space (rev (chars s)))).

(** [s.startswith(p)] *)
Definition startswith (s p : string) : bool := String.prefix p s.

(** [s.find(sub)]: index of the first occurrence, or -1. *)
Fixpoint find_from (sub s : string) (i : Z) : Z :=
  if String.prefix sub s then i
  else match s with
       | EmptyString => -1
       | String _ t => find_from sub t (i + 1)
       end.

Definition find (s sub : string) : Z := find_from sub s 0.

(** [re.split("\s+", s)] *)
Fixpoint split_ws_aux (l cur : list ascii) (in_run : bool) : list string :=
  match l with
  | [] => [of_chars (rev cur)]
  | c :: t =>
      if is_space c then
        if in_run then split_ws_aux t cur true
        else of_chars (rev cur) :: split_ws_aux t [] true
      else split_ws_aux t (c :: cur) false
  end.

Definition split_ws (s : string) : list string := split_ws_aux (chars s) [] false.

(** [s.splitlines()] *)
Fixpoint splitlines_aux (l cur : list ascii) : list string :=
  match l with
  | [] => match cur with [] => [] | _ => [of_chars (rev cur)] end
  | c :: t =>
      if Ascii.eqb c CR then
        match t with
        | c' :: t' => if Ascii.eqb c' LF then of_chars (rev cur) :: splitlines_aux t' []
                      else of_chars (rev cur) :: splitlines_aux t []
        | [] => [of_chars (rev cur)]
        end
      else if is_line_break c then of_chars (rev cur) :: splitlines_aux t []
      else splitlines_aux t (c :: cur)
  end.

Definition splitlines (s : string) : list string := splitlines_aux (chars s) [].

(** Text read through [open()] in universal-newlines mode: ["\r\n"] and a
    lone ["\r"] both become ["\n"]. *)
Fixpoint translate_newlines (l : list ascii) : list ascii :=
  match l with
  | [] => []
  | c :: t =>
      if Ascii.eqb c CR then
        match t with
        | c' :: t' => if Ascii.eqb c' LF then LF :: translate_newlines t'
                      else LF :: translate_newlines t
        | [] => [LF]
        end
      else c :: translate_newlines t
  end.

(** The lines yielded by iterating over an open text file: split after each
    ["\n"], a final unterminated piece counting as a line. *)
Fixpoint file_lines_aux (l cur : list ascii) : list string :=
  match l with
  | [] => match cur with [] => [] | _ => [of_chars (rev cur)] end
  | c :: t =>
      if Ascii.eqb c LF then of_chars (rev (c :: cur)) :: file_lines_aux t []
      else file_lines_aux t (c :: cur)
  end.

Definition file_lines (contents : string) : list string :=
  file_lines_aux (translate_newlines (chars contents)) [].

(** [f.read()] on a text file. *)
Definition file_read (contents : string) : string :=
  of_chars (translate_newlines (chars contents)).

(** [str(n)] for a Python int. *)
Fixpoint dec_digits (fuel : nat) (n : Z) (acc : string) : string :=
  match fuel with
  | O => acc
  | S f =>
      let acc' := String (chr (48 + Z.to_nat (n mod 10))) acc in
      if n / 10 =? 0 then acc' else dec_digits f (n / 10) acc'
  end.

Definition str_nonneg (n : Z) : string := dec_digits (S (Z.to_nat (Z.log2 n))) n "".

Definition str_int (n : Z) : string :=
  if n <? 0 then ("-" ++ str_nonneg (- n))%string else str_nonneg n.

(** ** os.path *)

Definition slash : ascii := "/"%char.
Definition dot : ascii := "."%char.

Definition not_slash (c : ascii) : bool := negb (Ascii.eqb c slash).

(** [os.path.dirname] (posixpath): the head up to the last ['/'], with its
    trailing slashes removed unless it consists of slashes only. *)
Definition dirname (p : string) : string :=
  let head := rev (drop_while not_slash (rev (chars p))) in
  if (negb (List.forallb (fun c => Ascii.eqb c slash) head)) then
    of_chars (rev (drop_while (fun c => Ascii.eqb c slash) (rev head)))
  else of_chars head.

(** [os.path.basename] (posixpath): what follows the last ['/']. *)
Definition basename (p : string) : string :=
  of_chars (rev (take_while not_slash (rev (chars p)))).

(** [os.path.splitext(p)[0]] for a name without ['/']: cut at the last dot
    when some character before that dot is not a dot. *)
Definition splitext_root (p : string) : string :=
  let r := rev (chars p) in
  match drop_while (fun c => negb (Ascii.eqb c dot)) r with
  | _ :: before_rev =>
      if List.existsb (fun c => negb (Ascii.eqb c dot)) before_rev
      then of_chars (rev before_rev) else p
  | [] => p
  end.

(** [re.sub(r"\s+", "", s)] *)
Definition remove_ws (s : string) : string :=
  of_chars (List.filter (fun c => negb (is_space c)) (chars s)).

(** [re.sub(r"-", "_", s)] *)
Definition dash_to_underscore (s : string) : string :=
  of_chars (List.map (fun c => if Ascii.eqb c "-"%char then "_"%char else c) (chars s)).

(** ** PBStarter.create_tokens_from_filepath / generate_output_filename *)

Definition create_tokens_from_filepath (filepath : string) : string * string * string :=
  let dirbase := dirname filepath in
  let filename := basename filepath in
  let base := splitext_root filename in
  (dirbase, filename, base).

Definition generate_output_filename (filepath pb_args : string) (processes chain_nr : Z)
  : string :=
  let '(dirbase, _, basename) := create_tokens_from_filepath filepath in
  let pb_postfix := dash_to_underscore (remove_ws pb_args) in
  let base := (basename ++ pb_postfix ++ "_" ++ str_int processes)%string in
  let return_path :=
    match dirbase with
    | EmptyString => base
    | _ => (dirbase ++ "/" ++ base)%string
    end in
  if chain_nr =? 0 then return_path
  else (return_path ++ "_chain" ++ str_int chain_nr)%string.

(** ** The governor's effects

    A run observes a fixed world: the environment, the file system (path to
    contents) and the standard output of every command line it starts, which
    may depend on the time the command is started.  The program's effects
    are recorded in a log; [time.sleep] advances the clock. *)

Record world := {
  env : string -> option string;
  fs : string -> option string;
  run : string -> Z -> string
}.

Inductive exn := FileNotFoundError | ValueError | IndexError | TypeError | ZeroDivisionError.

Inductive event :=
| Print (s : string)
| System (cmd : string)
| Popen (cmd : string)
| Sleep (secs : Z).

Record st := { log : list event; clock : Z }.

(** How a run stops early: [sys.exit(code)] or an uncaught exception. *)
Inductive halt := Exit (code : Z) | Raise (e : exn).

Definition M (A : Type) : Type := st -> st * (halt + A).

Definition ret {A} (a : A) : M A := fun s => (s, inr a).

Definition bind {A B} (m : M A) (k : A -> M B) : M B :=
  fun s => match m s with
           | (s', inl h) => (s', inl h)
           | (s', inr a) => k a s'
           end.

Declare Scope gov_scope.
Delimit Scope gov_scope with gov.
Notation "x <- m ;; k" := (bind m (fun x => k))
  (at level 61, m at next level, right associativity) : gov_scope.
Notation "' p <- m ;; k" := (bind m (fun x => match x with p => k end))
  (at level 61, p pattern, m at next level, right associativity) : gov_scope.
Notation "m ;; k" := (bind m (fun _ => k))
  (at level 61, right associativity) : gov_scope.
Open Scope gov_scope.

Definition emit (e : event) : M unit :=
  fun s => ({| log := log s ++ [e]; clock := clock s |}, inr tt).

Definition print (msg : string) : M unit := emit (Print msg).

(** [os.system(cmd)]; its status is never used by the program. *)
Definition system (cmd : string) : M unit := emit (System cmd).

Definition sleep (secs : Z) : M unit :=
  fun s => ({| log := log s ++ [Sleep secs]; clock := clock s + secs |}, inr tt).

Definition sys_exit {A} (code : Z) : M A := fun s => (s, inl (Exit code)).

Definition raise {A} (e : exn) : M A := fun s => (s, inl (Raise e)).

Fixpoint for_each {A} (l : list A) (f : A -> M unit) : M unit :=
  match l with
  | [] => ret tt
  | x :: t => f x ;; for_each t f
  end.

Fixpoint fold_m {A B} (f : B -> A -> M B) (acc : B) (l : list A) : M B :=
  match l with
  | [] => ret acc
  | x :: t => acc' <- f acc x ;; fold_m f acc' t
  end.

Fixpoint map_m {A B} (f : A -> M B) (l : list A) : M (list B) :=
  match l with
  | [] => ret []
  | x :: t => y <- f x ;; ys <- map_m f t ;; ret (y :: ys)
  end.

(** [range(1, n + 1)] *)
Definition range1 (n : Z) : list Z := List.map Z.of_nat (List.seq 1 (Z.to_nat n)).

Definition join (sep : string) (l : list string) : string := String.concat sep l.

(** The thresholds held by a [PBStarter] instance (class attributes that
    [main] overwrites from the command line). *)
Record PBStarter := {
  BPCOMP_MAXDIFF : Q;
  TRCOMP_EFFSIZE : Q;
  TRCOMP_RELDIFF : Q;
  MAX_SAMPLE_SIZE : Z;
  MIN_SAMPLE_SIZE : Z
}.

Definition default_starter : PBStarter := {|
  BPCOMP_MAXDIFF := 3 # 10;
  TRCOMP_EFFSIZE := 50 # 1;
  TRCOMP_RELDIFF := 3 # 10;
  MAX_SAMPLE_SIZE := 100000;
  MIN_SAMPLE_SIZE := 6667
|}.

Section Governor.

Variable w : world.

(** Python's [float()] on a report field: [None] where it raises
    [ValueError]. *)
Variable py_float : string -> option Q.

(** [subprocess.Popen(...).communicate()]: the command's standard output. *)
Definition popen (cmd : string) : M string :=
  fun s => ({| log := log s ++ [Popen cmd]; clock := clock s |}, inr (run w cmd (clock s))).

Definition path_exists (p : string) : bool :=
  match fs w p with Some _ => true | None => false end.

(** The job id computed at the top of [start_pb_jobs] and
    [check_convergence]; concatenating [None] raises [TypeError]. *)
Definition get_slurm_job_id : M (option string) :=
  match env w "SLURM_ARRAY_JOB_ID" with
  | Some a =>
      match env w "SLURM_ARRAY_TASK_ID" with
      | Some t => ret (Some (a ++ "_" ++ t)%string)
      | None => raise TypeError
      end
  | None => ret (env w "SLURM_JOB_ID")
  end.

(** [not slurm_job_id is None and slurm_job_id != "_"] *)
Definition uses_slurm (job : option string) : option string :=
  match job with
  | Some j => if String.eqb j "_" then None else Some j
  | None => None
  end.

Definition subtask_id (job : string) (i : Z) : string := (job ++ "." ++ str_int (i - 1))%string.

(** First line of [sacct -n -j <subtask>], or [""]. *)
Definition sacct_first_line (sub : string) : M string :=
  out <- popen ("sacct -n -j " ++ sub)%string ;;
  ret (match splitlines out with l :: _ => l | [] => ""%string end).

Definition is_blank (s : string) : bool := String.eqb (rstrip s) "".

(** *** PBStarter.start_pb_jobs *)

Definition pb_command (processes : Z) : string :=
  ((if processes >? 1 then "pb_mpi" else "pb") ++ " ")%string.

Definition srun_prefix (processes : Z) (out : string) : string :=
  ("srun --cpu_bind=v,threads -c 1 -n " ++ str_int processes ++ " -o " ++ out ++ ".out ")%string.

(** The command line of line 110: restart the chain from its files. *)
Definition resume_command (processes : Z) (out : string) : string :=
  (srun_prefix processes out ++ pb_command processes ++ out ++ " &")%string.

(** The command line of line 112: a fresh chain on the alignment. *)
Definition fresh_command (infile pb_args : string) (processes : Z) (out : string) : string :=
  (srun_prefix processes out ++ pb_command processes ++ pb_args ++ " -d " ++ infile
   ++ " " ++ out ++ " &")%string.

(** The confirmation loop of lines 121-149; [fuel] bounds the iterations,
    started at [max_wait + 1], which the exit test never lets run out. *)
Fixpoint wait_for_srun (fuel : nat) (sub : string) (waited max_wait : Z) : M unit :=
  match fuel with
  | O => ret tt
  | S f =>
      sleep 1 ;;
      first_line <- sacct_first_line sub ;;
      let waited := waited + 1 in
      if negb (is_blank first_line) then ret tt
      else
        print ("Waiting for srun to start for " ++ sub)%string ;;
        if waited >? max_wait then
          print ("Max waiting time reached, srun did not start for " ++ sub)%string ;;
          print "Wasn't able to start every subtask, exiting..." ;;
          sys_exit 3
        else wait_for_srun f sub waited max_wait
  end.

Definition start_chain (infile pb_args : string) (processes i : Z) : M unit :=
  let out := generate_output_filename infile pb_args processes i in
  print ("Following pb chain is going to be started: " ++ out)%string ;;
  system (if path_exists (out ++ ".trace")
          then resume_command processes out
          else fresh_command infile pb_args processes out) ;;
  job <- get_slurm_job_id ;;
  let max_wait := 60 in
  match uses_slurm job with
  | Some j => wait_for_srun (S (Z.to_nat max_wait)) (subtask_id j i) 0 max_wait
  | None => ret tt
  end.

Definition start_pb_jobs (infile pb_args : string) (chains processes : Z) : M unit :=
  for_each (range1 chains) (start_chain infile pb_args processes).

(** *** PBStarter.check_convergence *)

(** Line 184: the liveness test of one chain's first [sacct] line. *)
Definition chain_is_running (first_line : string) : bool :=
  negb (is_blank first_line) && negb (find first_line "RUNNING" =? -1).

Definition check_chain_running (job : string) (i : Z) : M bool :=
  let sub := subtask_id job i in
  first_line <- sacct_first_line sub ;;
  if chain_is_running first_line then ret true
  else print ("Phylobayes job of " ++ sub ++ " is NOT running.")%string ;; ret false.

Definition check_liveness (job : string) (chains : Z) : M unit :=
  every_chain_is_running <-
    fold_m (fun acc i => r <- check_chain_running job i ;; ret (acc && r)) true (range1 chains) ;;
  if every_chain_is_running then ret tt
  else
    print "Some of the chains looks like not running. Check output logs for more information." ;;
    print "Exiting..." ;;
    sys_exit 4.

(** Lines 201-206: count a chain's samples, stopping it above the cap. *)
Definition count_chain (self : PBStarter) (infile pb_args : string) (processes i : Z) : M Z :=
  let out := generate_output_filename infile pb_args processes i in
  match fs w (out ++ ".trace") with
  | None => raise FileNotFoundError
  | Some contents =>
      let n := Z.of_nat (length (file_lines contents)) in
      (if n >? MAX_SAMPLE_SIZE self then system ("stoppb " ++ out)%string else ret tt) ;;
      ret n
  end.

Definition count_samples (self : PBStarter) (infile pb_args : string) (chains processes : Z)
  : M (list Z) :=
  map_m (count_chain self infile pb_args processes) (range1 chains).

(** Python's [min] on a list of ints. *)
Definition py_min (l : list Z) : M Z :=
  match l with
  | [] => raise ValueError
  | x :: t => ret (fold_left Z.min t x)
  end.

(** Lines 229-240: the [bpcomp] report; [bp_res] becomes 1 on any
    [maxdiff] line whose value is within the threshold. *)
Fixpoint bp_scan (self : PBStarter) (lines : list string) (bp_res : Z) : M Z :=
  match lines with
  | [] => ret bp_res
  | line :: t =>
      print (rstrip line) ;;
      if startswith line "maxdiff" then
        let fields := split_ws (rstrip line) in
        let f := last fields ""%string in
        match py_float f with
        | None => raise ValueError
        | Some v =>
            if Qle_bool v (BPCOMP_MAXDIFF self) then
              print ("Converged because maxdiff is " ++ f)%string ;; bp_scan self t 1
            else
              print ("Not converged yet: maxdiff is " ++ f)%string ;; bp_scan self t bp_res
        end
      else bp_scan self t bp_res
  end.

(** Lines 250-270: the [tracecomp] report; every row of at least two fields
    other than the header counts one parameter line and adds one pass per
    satisfied sub-check. *)
Fixpoint tr_scan (self : PBStarter) (lines : list string) (tr_res tr_line_number : Z)
  : M (Z * Z) :=
  match lines with
  | [] => ret (tr_res, tr_line_number)
  | line :: t =>
      print (rstrip line) ;;
      let fields := split_ws (rstrip line) in
      if (1 <? length fields)%nat then
        if String.eqb (nth 0 fields ""%string) "name" then tr_scan self t tr_res tr_line_number
        else
          let tr_line_number := tr_line_number + 1 in
          let f0 := nth 0 fields ""%string in
          let f1 := nth 1 fields ""%string in
          match py_float f1 with
          | None => raise ValueError
          | Some eff =>
              r1 <- (if Qle_bool (TRCOMP_EFFSIZE self) eff then
                       print ("Converged : " ++ f0 ++ " " ++ f1)%string ;; ret (tr_res + 1)
                     else
                       print ("Not converged yet : " ++ f1)%string ;; ret tr_res) ;;
              match nth_error fields 2 with
              | None => raise IndexError
              | Some f2 =>
                  match py_float f2 with
                  | None => raise ValueError
                  | Some rel =>
                      r2 <- (if Qle_bool rel (TRCOMP_RELDIFF self) then
                               print ("Converged : " ++ f0 ++ " " ++ f2)%string ;; ret (r1 + 1)
                             else
                               print ("Not converged yet : " ++ f2)%string ;; ret r1) ;;
                      tr_scan self t r2 tr_line_number
                  end
              end
          end
      else tr_scan self t tr_res tr_line_number
  end.

Definition chain_prefixes (infile pb_args : string) (chains processes : Z) : string :=
  join " " (List.map (generate_output_filename infile pb_args processes) (range1 chains)).

Definition bpcomp_cmd (infile pb_args : string) (chains processes burnin : Z) : string :=
  ("bpcomp -o " ++ generate_output_filename infile pb_args processes 0 ++ ".bpcomp -x "
   ++ str_int burnin ++ " " ++ chain_prefixes infile pb_args chains processes)%string.

Definition tracecomp_cmd (infile pb_args : string) (chains processes burnin : Z) : string :=
  ("tracecomp -o " ++ generate_output_filename infile pb_args processes 0 ++ ".tracecomp -x "
   ++ str_int burnin ++ " " ++ chain_prefixes infile pb_args chains processes)%string.

(** The decision of line 275. *)
Definition converged (bp_res tr_res tr_line_number : Z) : bool :=
  (bp_res =? 1) && (tr_res =? tr_line_number).

Definition stop_all (infile pb_args : string) (chains processes : Z) : M unit :=
  for_each (range1 chains)
    (fun i => system ("stoppb " ++ generate_output_filename infile pb_args processes i)%string).

(** Lines 212-281: run the diagnostics and stop every chain on convergence. *)
Definition evaluate (self : PBStarter) (infile pb_args : string) (chains processes min_samples : Z)
  : M unit :=
  let burnin := Z.quot min_samples 4 in
  bp_proc_out <- popen (bpcomp_cmd infile pb_args chains processes burnin) ;;
  print "Bpcomp:" ;;
  bp_res <- bp_scan self (splitlines bp_proc_out) 0 ;;
  trc_proc_out <- popen (tracecomp_cmd infile pb_args chains processes burnin) ;;
  print "Tracecomp:" ;;
  '(tr_res, tr_line_number) <- tr_scan self (splitlines trc_proc_out) 0 0 ;;
  if converged bp_res tr_res tr_line_number then
    stop_all infile pb_args chains processes ;; sys_exit 0
  else ret tt.

(** Lines 286-293: some chain's [.run] file reads ["1"]. *)
Definition any_run_flag (infile pb_args : string) (chains processes : Z) : M bool :=
  fold_m (fun all_running i =>
            match fs w (generate_output_filename infile pb_args processes i ++ ".run")%string with
            | None => raise FileNotFoundError
            | Some c => ret (all_running || String.eqb (file_read c) "1")
            end) false (range1 chains).

Definition check_convergence (self : PBStarter) (infile pb_args : string) (chains processes : Z)
  : M unit :=
  job <- get_slurm_job_id ;;
  (match uses_slurm job with
   | Some j => check_liveness j chains
   | None => ret tt
   end) ;;
  num_samples <- count_samples self infile pb_args chains processes ;;
  min_samples <- py_min num_samples ;;
  if MIN_SAMPLE_SIZE self <=? min_samples then
    evaluate self infile pb_args chains processes min_samples
  else if MAX_SAMPLE_SIZE self <=? min_samples then sys_exit 0
  else
    all_running <- any_run_flag infile pb_args chains processes ;;
    if all_running then ret tt else sys_exit 0.

End Governor.

(** *** main: the process count under Slurm (lines 397-400)

    [slurm_ntasks] is [int(os.environ["SLURM_NTASKS"])] when the variable is
    set; [int(n / chains)] truncates the quotient. *)
Definition adjust_processes (processes chains : Z) (slurm_ntasks : option Z) : halt + Z :=
  match slurm_ntasks with
  | Some n =>
      if negb (processes =? chains * n) then
        if chains =? 0 then inl (Raise ZeroDivisionError) else inr (Z.quot n chains)
      else inr processes
  | None => inr processes
  end.

(** ** Concrete instances for evaluation *)

(** Python's [float()] on plain decimal literals ([-]digits[.digits]); the
    exponent, [inf]/[nan] and underscore forms it also accepts are not
    recognised here and are not used by the inputs below. *)
Definition digit_val (c : ascii) : option Z :=
  let n := nat_of_ascii c in
  if ((48 <=? n)%nat && (n <=? 57)%nat) then Some (Z.of_nat n - 48) else None.

Fixpoint dec_body (l : list ascii) (num : Z) (den : positive) (seen_dot : bool) (ndig : nat)
  : option Q :=
  match l with
  | [] => if (ndig =? 0)%nat then None else Some (num # den)
  | c :: t =>
      if Ascii.eqb c dot then
        if seen_dot then None else dec_body t num den true ndig
      else match digit_val c with
           | Some d => dec_body t (num * 10 + d) (if seen_dot then den * 10 else den)%positive
                         seen_dot (S ndig)
           | None => None
           end
  end.

Definition dec_float (s : string) : option Q :=
  match chars s with
  | c :: t =>
      if Ascii.eqb c "-"%char then option_map Qopp (dec_body t 0 1 false 0)
      else if Ascii.eqb c "+"%char then dec_body t 0 1 false 0
      else dec_body (c :: t) 0 1 false 0
  | [] => None
  end.

Definition nl : string := String LF EmptyString.

Fixpoint repeat_str (n : nat) (s : string) : string :=
  match n with O => EmptyString | S k => (s ++ repeat_str k s)%string end.

(** A sample file of [n] rows. *)
Definition trace_file (n : nat) : string := repeat_str n ("0.1 0.2" ++ nl)%string.

Definition no_env : string -> option string := fun _ => None.

(** A world without Slurm whose two chains have [n1] and [n2] samples and
    whose diagnostics print [bp] and [tr]. *)
Definition diag_world (infile pb_args : string) (processes : Z) (n1 n2 : nat) (bp tr : string)
  : world := {|
  env := no_env;
  fs := fun p =>
    if String.eqb p (generate_output_filename infile pb_args processes 1 ++ ".trace") then
      Some (trace_file n1)
    else if String.eqb p (generate_output_filename infile pb_args processes 2 ++ ".trace") then
      Some (trace_file n2)
    else if String.eqb p (generate_output_filename infile pb_args processes 1 ++ ".run") then
      Some "1"%string
    else if String.eqb p (generate_output_filename infile pb_args processes 2 ++ ".run") then
      Some "1"%string
    else None;
  run := fun cmd _ =>
    if startswith cmd "bpcomp" then bp
    else if startswith cmd "tracecomp" then tr
    else EmptyString
|}.

Definition report (ls : list string) : string := String.concat nl ls.

Definition bp_scenario_A : string := report ["maxdiff    0.05"%string].

Definition tr_scenario_A : string :=
  report ["name      effsize  rel_diff"; "lnL       400      0.05"; "length    400      0.05"]%string.

Definition run_check (w : world) (self : PBStarter) (chains processes : Z) : st * (halt + unit) :=
  check_convergence w dec_float self "aln.phy" "-cat -gtr" chains processes
    {| log := []; clock := 0 |}.

Definition stops (l : list event) : list string :=
  flat_map (fun e => match e with System c => if startswith c "stoppb" then [c] else [] | _ => [] end) l.

(** Scenario B of the spec with the first row failing both sub-checks. *)
Definition tr_one_row_failing_both : string :=
  report ["name      effsize  rel_diff"; "lnL       40       0.5"; "length    400      0.05"]%string.

(** A Slurm world whose [sacct] prints [status t] at time [t]. *)
Definition slurm_world (status : Z -> string) : world := {|
  env := fun v => if String.eqb v "SLURM_JOB_ID" then Some "42"%string else None;
  fs := fun _ => None;
  run := fun cmd t => if startswith cmd "sacct" then status t else EmptyString
|}.

Definition popens (l : list event) : nat :=
  length (List.filter (fun e => match e with Popen _ => true | _ => false end) l).

Definition init : st := {| log := []; clock := 0 |}.

(** The command [start_pb_jobs] issues for chain [i] (lines 104-112). *)
Definition launch_command (w : world) (infile pb_args : string) (processes i : Z) : string :=
  let out := generate_output_filename infile pb_args processes i in
  if path_exists w (out ++ ".trace") then resume_command processes out
  else fresh_command infile pb_args processes out.

(** What [sacct_first_line] extracts from a command output. *)
Definition first_line_of (out : string) : string :=
  match splitlines out with l :: _ => l | [] => ""%string end.

(** The [stoppb] commands of lines 276-277. *)
Definition stoppb_commands (infile pb_args : string) (chains processes : Z) : list string :=
  List.map (fun i => "stoppb " ++ generate_output_filename infile pb_args processes i)%string
    (range1 chains).

(** A [tracecomp] line the scan counts as a parameter row. *)
Definition is_parameter_row (line : string) : bool :=
  let fields := split_ws (rstrip line) in
  (1 <? length fields)%nat && negb (String.eqb (nth 0 fields ""%string) "name").

(** The two diagnostic worlds of Scenario A and of its variant. *)
Definition world_A : world :=
  diag_world "aln.phy" "-cat -gtr" 1 7000 7000 bp_scenario_A tr_scenario_A.

Definition world_one_row_failing_both : world :=
  diag_world "aln.phy" "-cat -gtr" 1 7000 7000 bp_scenario_A tr_one_row_failing_both.

(** Both chains at 100000 samples, [maxdiff] above its threshold. *)
Definition world_at_cap : world :=
  diag_world "aln.phy" "-cat -gtr" 1 100000 100000 (report ["maxdiff    0.5"%string])
    tr_scenario_A.

(** [sacct] never reports the subtask. *)
Definition world_sacct_silent : world := slurm_world (fun _ => EmptyString).

(** [sacct] reports the subtask from the 61st second on. *)
Definition world_sacct_late : world :=
  slurm_world (fun t => if 61 <=? t then "42.0  pb  RUNNING"%string else EmptyString).

(** A world with no files and silent commands. *)
Definition world_empty : world := {|
  env := no_env;
  fs := fun _ => None;
  run := fun _ _ => EmptyString
|}.

(** A world whose [maxdiff] value is not a number. *)
Definition world_bad_maxdiff : world :=
  diag_world "aln.phy" "-cat -gtr" 1 7000 7000 (report ["maxdiff    n/a"%string]) tr_scenario_A.

(** [sacct] prints a full accounting row for every subtask. *)
Definition world_sacct_row : world :=
  slurm_world (fun _ => "42.0  pb  RUNNING  0:0"%string).

(** The first [sacct] line of subtask [i] at time [t]. *)
Definition status_at (w : world) (job : string) (t i : Z) : string :=
  first_line_of (run w ("sacct -n -j " ++ subtask_id job i)%string t).

(** A [tracecomp] report with its header line only. *)
Definition world_no_rows : world :=
  diag_world "aln.phy" "-cat -gtr" 1 7000 7000 bp_scenario_A
    (report ["name      effsize  rel_diff"%string]).

(** The value of a string of decimal digits, read left to right from [v]. *)
Definition dec_value (l : list ascii) (v : Z) : Z :=
  fold_left (fun v c => v * 10 + (Z.of_nat (nat_of_ascii c) - 48)) l v.

(** The last character of a string is not ['/'] (and the string is not
    empty). *)
Definition ends_without_slash (d : string) : bool :=
  match rev (chars d) with x :: _ => not_slash x | [] => false end.

Definition not_dot (c : ascii) : bool := negb (Ascii.eqb c dot).

(** A character that does not end a line of a text file. *)
Definition no_eol (c : ascii) : bool := negb (Ascii.eqb c LF) && negb (Ascii.eqb c CR).

(** A text file of the given rows, each ended by ["\n"] or, when its flag
    is set, by ["\r\n"], followed by an unterminated [last] piece. *)
Definition text_file (rows : list (string * bool)) (last : string) : string :=
  fold_right (fun (row : string * bool) (acc : string) =>
                let '(r, crlf) := row in (r ++ (if crlf then String CR nl else nl) ++ acc)%string)
    last rows.

(** Inside a job array whose task id is not set. *)
Definition world_array_no_task : world := {|
  env := fun v => if String.eqb v "SLURM_ARRAY_JOB_ID" then Some "42"%string else None;
  fs := fun _ => None;
  run := fun _ _ => EmptyString
|}.

(** The codes a computation may pass to [sys.exit]. *)
Definition exit_codes {A} (P : Z -> Prop) (m : M A) : Prop :=
  forall s c, snd (m s) = inl (Exit c) -> P c.

(** ** Helper lemmas *)

Definition systems (l : list event) : list string :=
  flat_map (fun e => match e with System c => [c] | _ => [] end) l.

(** A computation that issues no [os.system] command. *)
Definition no_system {A} (m : M A) : Prop :=
  forall s, systems (log (fst (m s))) = systems (log s).

Lemma systems_app (a b : list event) : systems (a ++ b) = systems a ++ systems b.
Proof. unfold systems. apply flat_map_app. Qed.

Lemma no_system_ret {A} (a : A) : no_system (ret a).
Proof. intros s. reflexivity. Qed.

Lemma no_system_raise {A} e : no_system (@raise A e).
Proof. intros s. reflexivity. Qed.

Lemma no_system_exit {A} c : no_system (@sys_exit A c).
Proof. intros s. reflexivity. Qed.

Lemma no_system_print msg : no_system (print msg).
Proof. intros s. simpl. rewrite systems_app. simpl. apply app_nil_r. Qed.

Lemma no_system_sleep n : no_system (sleep n).
Proof. intros s. simpl. rewrite systems_app. simpl. apply app_nil_r. Qed.

Lemma no_system_popen w cmd : no_system (popen w cmd).
Proof. intros s. simpl. rewrite systems_app. simpl. apply app_nil_r. Qed.

Lemma no_system_bind {A B} (m : M A) (k : A -> M B) :
  no_system m -> (forall a, no_system (k a)) -> no_system (bind m k).
Proof.
  intros Hm Hk s. unfold bind. specialize (Hm s).
  destruct (m s) as [s1 [h | a]] eqn:E; simpl in *; [exact Hm |].
  rewrite Hk. exact Hm.
Qed.

Create HintDb nosys.
#[export] Hint Resolve no_system_ret no_system_raise no_system_exit no_system_print
  no_system_sleep no_system_popen no_system_bind : nosys.

Lemma no_system_sacct w sub : no_system (sacct_first_line w sub).
Proof. unfold sacct_first_line. auto with nosys. Qed.

#[export] Hint Resolve no_system_sacct : nosys.

Lemma no_system_wait w fuel sub waited max_wait : no_system (wait_for_srun w fuel sub waited max_wait).
Proof.
  revert waited. induction fuel as [| f IH]; intros waited; simpl; [auto with nosys |].
  apply no_system_bind; [auto with nosys | intros []].
  apply no_system_bind; [auto with nosys | intros first_line].
  destruct (negb (is_blank first_line)); [auto with nosys |].
  apply no_system_bind; [auto with nosys | intros []].
  destruct (_ >? _); auto with nosys.
Qed.

Lemma no_system_job w : no_system (get_slurm_job_id w).
Proof.
  unfold get_slurm_job_id.
  destruct (env w "SLURM_ARRAY_JOB_ID"); [destruct (env w "SLURM_ARRAY_TASK_ID") |];
    auto with nosys.
Qed.

#[export] Hint Resolve no_system_wait no_system_job : nosys.

Lemma str_length_app (s1 s2 : string) :
  String.length (s1 ++ s2) = (String.length s1 + String.length s2)%nat.
Proof. induction s1 as [| c s1 IH]; simpl; [reflexivity | now rewrite IH]. Qed.

Lemma resume_neq_fresh infile pb_args processes out :
  resume_command processes out <> fresh_command infile pb_args processes out.
Proof.
  intros H. apply (f_equal String.length) in H.
  unfold resume_command, fresh_command in H. rewrite !str_length_app in H. simpl in H. lia.
Qed.

Lemma start_chain_systems w infile pb_args processes i s :
  systems (log (fst (start_chain w infile pb_args processes i s)))
  = systems (log s) ++ [launch_command w infile pb_args processes i].
Proof.
  unfold start_chain.
  match goal with |- context [bind (get_slurm_job_id w) ?k] =>
    assert (Hk : no_system (bind (get_slurm_job_id w) k)) by
      (apply no_system_bind; [auto with nosys | intros job; destruct (uses_slurm job); auto with nosys]);
    set (rest := bind (get_slurm_job_id w) k) in * end.
  cbn [bind print emit system].
  rewrite Hk. simpl. rewrite !systems_app. simpl. rewrite app_nil_r. reflexivity.
Qed.

Lemma for_each_start_systems w infile pb_args processes (l : list Z) s :
  exists k,
    systems (log (fst (for_each l (start_chain w infile pb_args processes) s)))
    = systems (log s) ++ List.map (launch_command w infile pb_args processes) (firstn k l)
    /\ (snd (for_each l (start_chain w infile pb_args processes) s) = inr tt -> k = length l).
Proof.
  revert s. induction l as [| x t IH]; intros s.
  - exists O. simpl. split; [symmetry; apply app_nil_r | reflexivity].
  - pose proof (start_chain_systems w infile pb_args processes x s) as Hx.
    simpl. unfold bind.
    destruct (start_chain w infile pb_args processes x s) as [s1 [h | []]] eqn:E.
    + exists 1%nat. simpl in *. split; [exact Hx | discriminate].
    + destruct (IH s1) as [k [Hk Hr]]. exists (S k). simpl in Hx. split.
      * rewrite Hk, Hx. simpl. rewrite <- app_assoc. reflexivity.
      * intros Hs. simpl. f_equal. apply Hr. exact Hs.
Qed.

(** ** The claims *)

(** C5: for each chain [i] of [1..N], [start_pb_jobs] issues the resume
    command (the sampler on the existing output prefix, no [-d] alignment
    argument) exactly when [<prefix_i>.trace] exists, and otherwise the
    fresh-start command with the sampler arguments, [-d] and the alignment
    path, and the prefix.  The commands issued are those of chains [1..k] in
    order, and of all [N] chains when the launch completes. *)
Theorem C5_resume_iff_trace_exists w infile pb_args chains processes s :
  (exists k,
     systems (log (fst (start_pb_jobs w infile pb_args chains processes s)))
     = systems (log s) ++ List.map (launch_command w infile pb_args processes)
                                    (firstn k (range1 chains))
     /\ (snd (start_pb_jobs w infile pb_args chains processes s) = inr tt ->
         k = length (range1 chains)))
  /\ (forall i,
        let out := generate_output_filename infile pb_args processes i in
        (launch_command w infile pb_args processes i = resume_command processes out
         <-> path_exists w (out ++ ".trace") = true)
        /\ (launch_command w infile pb_args processes i = fresh_command infile pb_args processes out
            <-> path_exists w (out ++ ".trace") = false)).
Proof.
  split; [apply for_each_start_systems |].
  intros i out. unfold launch_command. fold out.
  destruct (path_exists w (out ++ ".trace")); split; split; intros H; try reflexivity;
    try discriminate.
  - exfalso. apply (resume_neq_fresh infile pb_args processes out). exact H.
  - exfalso. apply (resume_neq_fresh infile pb_args processes out). symmetry. exact H.
Qed.

(** C6: [generate_output_filename] is a function of its four arguments, and
    for every chain index [i >= 1] its result is the chain-0 result followed
    by ["_chain"] and the decimal rendering of [i]. *)
Theorem C6_chain_suffix (filepath pb_args : string) (processes i : Z) (Hi : 1 <= i) :
  generate_output_filename filepath pb_args processes i
  = (generate_output_filename filepath pb_args processes 0 ++ "_chain" ++ str_int i)%string
  /\ (forall filepath' pb_args' processes' i',
        filepath' = filepath -> pb_args' = pb_args -> processes' = processes -> i' = i ->
        generate_output_filename filepath' pb_args' processes' i'
        = generate_output_filename filepath pb_args processes i).
Proof.
  split; [| intros; subst; reflexivity].
  unfold generate_output_filename.
  destruct (create_tokens_from_filepath filepath) as [[dirbase filename] base].
  replace (i =? 0) with false by (symmetry; apply Z.eqb_neq; lia).
  reflexivity.
Qed.

Lemma C6_chain_suffix_witness :
  1 <= 3 /\
  generate_output_filename "data/aln.phy" "-cat -gtr" 4 3
  = (generate_output_filename "data/aln.phy" "-cat -gtr" 4 0 ++ "_chain" ++ str_int 3)%string.
Proof.
  split; [lia |].
  exact (proj1 (C6_chain_suffix "data/aln.phy" "-cat -gtr" 4 3 ltac:(lia))).
Defined.

(** C9 (as amended): when [SLURM_NTASKS = n] is set, [n >= 0], [chains >= 1]
    and the requested count differs from [chains * n], the effective process
    count is [n / chains] (rounded down), so [processes * chains <= n], with
    equality exactly when [chains] divides [n]. *)
Theorem C9_processes_from_ntasks (processes chains n : Z)
  (Hc : 1 <= chains) (Hn : 0 <= n) (Hp : processes <> chains * n) :
  adjust_processes processes chains (Some n) = inr (n / chains)
  /\ (n / chains) * chains <= n
  /\ ((n / chains) * chains = n <-> n mod chains = 0).
Proof.
  unfold adjust_processes.
  replace (processes =? chains * n) with false by (symmetry; apply Z.eqb_neq; exact Hp).
  replace (chains =? 0) with false by (symmetry; apply Z.eqb_neq; lia).
  simpl. rewrite Z.quot_div_nonneg by lia.
  pose proof (Z.div_mod n chains ltac:(lia)) as Hd.
  pose proof (Z.mod_pos_bound n chains ltac:(lia)) as Hb.
  split; [reflexivity | split; [nia | split; intros H; nia]].
Qed.

Lemma C9_processes_from_ntasks_witness :
  adjust_processes 1 2 (Some 8) = inr 4 /\ 4 * 2 = 8.
Proof.
  split; [| reflexivity].
  exact (proj1 (C9_processes_from_ntasks 1 2 8 ltac:(lia) ltac:(lia) ltac:(lia))).
Defined.

(** C9 fails as stated: with [SLURM_NTASKS = 5] and two chains the process
    count becomes 2 and [2 * 2 <> 5]. *)
Lemma C9_counterexample :
  adjust_processes 1 2 (Some 5) = inr 2 /\ 2 * 2 <> 5.
Proof. split; [reflexivity | lia]. Qed.

(** C1 (code defect): in Scenario A (two rows each passing both sub-checks,
    [maxdiff 0.05]) the pass counter is 4 against 2 parameter lines, so
    [check_convergence] returns without stopping any chain; with the first
    row failing both sub-checks the counter is 2 and it stops both chains
    and exits 0. *)
Theorem C1_scenario_A_not_converged :
  snd (run_check world_A default_starter 2 1) = inr tt
  /\ stops (log (fst (run_check world_A default_starter 2 1))) = []
  /\ snd (run_check world_one_row_failing_both default_starter 2 1) = inl (Exit 0)
  /\ stops (log (fst (run_check world_one_row_failing_both default_starter 2 1)))
     = ["stoppb aln_cat_gtr_1_chain1"; "stoppb aln_cat_gtr_1_chain2"]%string.
Proof. repeat split; vm_compute; reflexivity. Qed.

(** C2 (code defect): with both chains at the 100000-sample cap and a
    failing [maxdiff], [check_convergence] takes the evaluation branch and
    returns normally; the cap exit [sys.exit(0)] is not reached. *)
Theorem C2_cap_exit_unreachable :
  snd (count_samples world_at_cap default_starter "aln.phy" "-cat -gtr" 2 1 init)
    = inr [100000; 100000]
  /\ snd (run_check world_at_cap default_starter 2 1) = inr tt.
Proof. split; vm_compute; reflexivity. Qed.

(** C7 (code defect): the confirmation loop queries [sacct] 61 times before
    exiting with code 3, and a status first reported at the 61st query is
    accepted. *)
Theorem C7_sixty_one_attempts :
  snd (start_pb_jobs world_sacct_silent "aln.phy" "-cat -gtr" 1 1 init) = inl (Exit 3)
  /\ popens (log (fst (start_pb_jobs world_sacct_silent "aln.phy" "-cat -gtr" 1 1 init))) = 61%nat
  /\ snd (start_pb_jobs world_sacct_late "aln.phy" "-cat -gtr" 1 1 init) = inr tt
  /\ popens (log (fst (start_pb_jobs world_sacct_late "aln.phy" "-cat -gtr" 1 1 init))) = 61%nat.
Proof. repeat split; vm_compute; reflexivity. Qed.

Lemma count_chain_present w self infile pb_args processes i s c :
  fs w (generate_output_filename infile pb_args processes i ++ ".trace") = Some c ->
  exists s', count_chain w self infile pb_args processes i s
             = (s', inr (Z.of_nat (length (file_lines c)))).
Proof.
  intros H. unfold count_chain. rewrite H.
  destruct (Z.of_nat (length (file_lines c)) >? MAX_SAMPLE_SIZE self); simpl; eexists; reflexivity.
Qed.

Lemma map_m_count_missing w self infile pb_args processes i (l : list Z) s :
  In i l ->
  fs w (generate_output_filename infile pb_args processes i ++ ".trace") = None ->
  snd (map_m (count_chain w self infile pb_args processes) l s) = inl (Raise FileNotFoundError).
Proof.
  intros Hin Hmiss. revert s. induction l as [| x t IH]; intros s; [destruct Hin |].
  simpl. unfold bind at 1.
  destruct (fs w (generate_output_filename infile pb_args processes x ++ ".trace")) as [c |] eqn:E.
  - destruct (count_chain_present w self infile pb_args processes x s c E) as [s' ->].
    destruct Hin as [-> | Hin]; [congruence |].
    unfold bind. specialize (IH Hin s').
    destruct (map_m (count_chain w self infile pb_args processes) t s') as [s'' [h | ys]].
    + exact IH.
    + discriminate IH.
  - unfold count_chain. rewrite E. reflexivity.
Qed.

(** C3 (as amended): if the sample file [<prefix_i>.trace] of some chain
    [i] of [1..N] does not exist, the sample-counting step of
    [check_convergence] does not count 0 for it: it ends in an uncaught
    [FileNotFoundError]. *)
Theorem C3_missing_trace_raises w self infile pb_args (chains processes i : Z) s
  (Hi : In i (range1 chains))
  (Hmiss : fs w (generate_output_filename infile pb_args processes i ++ ".trace") = None) :
  snd (count_samples w self infile pb_args chains processes s) = inl (Raise FileNotFoundError).
Proof. exact (map_m_count_missing w self infile pb_args processes i _ s Hi Hmiss). Qed.

Lemma C3_missing_trace_raises_witness :
  snd (count_samples world_empty default_starter "aln.phy" "-cat -gtr" 2 1 init)
  = inl (Raise FileNotFoundError).
Proof.
  apply (C3_missing_trace_raises world_empty default_starter "aln.phy" "-cat -gtr" 2 1 1 init).
  - simpl. left. reflexivity.
  - reflexivity.
Defined.

(** C3 fails as stated: without any sample file, [check_convergence] ends
    in [FileNotFoundError] instead of counting 0 samples. *)
Lemma C3_counterexample :
  snd (run_check world_empty default_starter 2 1) = inl (Raise FileNotFoundError).
Proof. vm_compute. reflexivity. Qed.

Lemma prefix_spec (sub s : string) :
  String.prefix sub s = true <-> exists post, s = (sub ++ post)%string.
Proof.
  revert s. induction sub as [| a sub IH]; intros s; simpl.
  - split; [intros _; exists s; reflexivity | intros _; destruct s; reflexivity].
  - destruct s as [| b s]; simpl.
    + split; [discriminate | intros [post H]; discriminate H].
    + destruct (ascii_dec a b) as [-> | Hne].
      * rewrite IH. split; intros [post H]; exists post; [now rewrite H | now injection H].
      * split; [discriminate | intros [post H]; injection H; intros; congruence].
Qed.

Lemma find_from_spec (sub s : string) (i : Z) :
  0 <= i -> (find_from sub s i <> -1 <-> exists pre post, s = (pre ++ sub ++ post)%string).
Proof.
  revert i. induction s as [| c t IH]; intros i Hi; cbn [find_from].
  - destruct sub as [| a sub]; simpl.
    + split; [intros _; exists ""%string, ""%string; reflexivity | intros _; lia].
    + split; [intros H; contradiction H; reflexivity |].
      intros [pre [post H]]. destruct pre; discriminate H.
  - destruct (String.prefix sub (String c t)) eqn:E.
    + split; [intros _ | intros _; lia].
      apply prefix_spec in E. destruct E as [post E]. exists ""%string, post. exact E.
    + rewrite (IH (i + 1)) by lia. split.
      * intros [pre [post H]]. exists (String c pre), post. simpl. now rewrite H.
      * intros [pre [post H]]. destruct pre as [| c' pre].
        -- exfalso. simpl in H. assert (Hp : String.prefix sub (String c t) = true)
             by (apply prefix_spec; exists post; exact H). congruence.
        -- simpl in H. injection H as -> Ht. exists pre, post. exact Ht.
Qed.

Lemma popens_app (a b : list event) : popens (a ++ b) = (popens a + popens b)%nat.
Proof. unfold popens. rewrite filter_app, length_app. reflexivity. Qed.

Lemma popens_snoc_popen l c : popens (l ++ [Popen c]) = S (popens l).
Proof. rewrite popens_app. unfold popens at 2. simpl. lia. Qed.

Lemma popens_snoc_print l m : popens (l ++ [Print m]) = popens l.
Proof. rewrite popens_app. unfold popens at 2. simpl. lia. Qed.

Lemma check_chain_running_spec w job i s :
  exists s',
    check_chain_running w job i s = (s', inr (chain_is_running (status_at w job (clock s) i)))
    /\ clock s' = clock s /\ popens (log s') = S (popens (log s)).
Proof.
  unfold check_chain_running, sacct_first_line, status_at, first_line_of. cbn [bind popen ret].
  destruct (chain_is_running _); cbn [bind print emit ret].
  - eexists. split; [reflexivity |]. simpl. rewrite popens_snoc_popen. split; reflexivity.
  - eexists. split; [reflexivity |]. simpl.
    rewrite popens_snoc_print, popens_snoc_popen. split; reflexivity.
Qed.

Lemma bind_ok {A B} (m : M A) (k : A -> M B) s s1 a :
  m s = (s1, inr a) -> bind m k s = k a s1.
Proof. intros E. unfold bind. rewrite E. reflexivity. Qed.

Lemma liveness_fold_spec w job (l : list Z) acc s :
  exists s',
    fold_m (fun acc i => r <- check_chain_running w job i ;; ret (acc && r)) acc l s
    = (s', inr (acc && forallb (fun i => chain_is_running (status_at w job (clock s) i)) l))
    /\ clock s' = clock s /\ popens (log s') = (popens (log s) + length l)%nat.
Proof.
  revert acc s. induction l as [| x t IH]; intros acc s.
  - exists s. simpl. rewrite andb_true_r. repeat split; lia.
  - cbn [fold_m].
    destruct (check_chain_running_spec w job x s) as [s1 [E [Hc Hp]]].
    erewrite bind_ok by (erewrite bind_ok by exact E; reflexivity).
    destruct (IH (acc && chain_is_running (status_at w job (clock s) x)) s1)
      as [s2 [E2 [Hc2 Hp2]]].
    rewrite Hc in E2.
    exists s2. rewrite E2. cbn [forallb]. split; [now rewrite andb_assoc |]. split; [lia |].
    rewrite Hp2, Hp. simpl. lia.
Qed.

(** C8 (as amended): under Slurm, chain [i] counts as running iff the first
    line of its [sacct] output is not blank and contains ["RUNNING"]
    anywhere (not an exact match); every chain is queried once, and if any
    is not running the check exits with code 4 after all queries, without a
    retry. *)
Theorem C8_liveness_substring w job chains s :
  (forall l : string,
     chain_is_running l = true
     <-> rstrip l <> ""%string /\ exists pre post, l = (pre ++ "RUNNING" ++ post)%string)
  /\ snd (check_liveness w job chains s)
     = (if forallb (fun i => chain_is_running (status_at w job (clock s) i)) (range1 chains)
        then inr tt else inl (Exit 4))
  /\ popens (log (fst (check_liveness w job chains s))) = (popens (log s) + length (range1 chains))%nat.
Proof.
  split.
  { intros l. unfold chain_is_running, is_blank, find.
    rewrite andb_true_iff, !negb_true_iff, String.eqb_neq, Z.eqb_neq.
    rewrite (find_from_spec "RUNNING" l 0) by lia. reflexivity. }
  unfold check_liveness.
  destruct (liveness_fold_spec w job (range1 chains) true s) as [s' [E [_ Hp]]].
  erewrite bind_ok by exact E. simpl andb.
  destruct (forallb _ _); cbn [andb bind ret print emit sys_exit fst snd log];
    split; try reflexivity; rewrite ?popens_snoc_print; exact Hp.
Qed.

Lemma C8_liveness_substring_witness :
  snd (check_liveness world_sacct_row "42" 2 init) = inr tt.
Proof.
  rewrite (proj1 (proj2 (C8_liveness_substring world_sacct_row "42" 2 init))).
  vm_compute. reflexivity.
Defined.

(** C8 fails as stated: an accounting row ["42.0  pb  RUNNING  0:0"], not
    exactly the marker ["RUNNING"], classifies both chains as running. *)
Lemma C8_counterexample :
  snd (check_liveness world_sacct_row "42" 2 init) = inr tt
  /\ status_at world_sacct_row "42" 0 1 = "42.0  pb  RUNNING  0:0"%string
  /\ status_at world_sacct_row "42" 0 1 <> "RUNNING"%string.
Proof. split; [vm_compute; reflexivity | split; [reflexivity | discriminate]]. Qed.

Ltac scan_step := cbn [bind print emit ret raise fst snd] in *.

Lemma bp_scan_app_ok py_float self pre post r s s1 r1 :
  bp_scan py_float self pre r s = (s1, inr r1) ->
  bp_scan py_float self (pre ++ post) r s = bp_scan py_float self post r1 s1.
Proof.
  revert r s. induction pre as [| x pre IH]; intros r s H.
  - simpl in H. injection H as -> ->. reflexivity.
  - cbn [app bp_scan] in *. scan_step.
    destruct (startswith x "maxdiff"); [| exact (IH _ _ H)].
    destruct (py_float _) as [v |]; [| discriminate H].
    destruct (Qle_bool _ _); scan_step; exact (IH _ _ H).
Qed.

Lemma tr_scan_app_ok py_float self pre post r n s s1 r1 n1 :
  tr_scan py_float self pre r n s = (s1, inr (r1, n1)) ->
  tr_scan py_float self (pre ++ post) r n s = tr_scan py_float self post r1 n1 s1.
Proof.
  revert r n s. induction pre as [| x pre IH]; intros r n s H.
  - simpl in H. injection H as -> -> ->. reflexivity.
  - cbn [app tr_scan] in *. scan_step.
    destruct (1 <? length _)%nat; [| exact (IH _ _ _ H)].
    destruct (String.eqb _ "name"); [exact (IH _ _ _ H) |].
    destruct (py_float _) as [e |]; [| discriminate H].
    destruct (Qle_bool _ e); scan_step;
      (destruct (nth_error _ 2) as [f2 |]; [| discriminate H]);
      (destruct (py_float f2) as [rel |]; [| discriminate H]);
      (destruct (Qle_bool rel _); scan_step; exact (IH _ _ _ H)).
Qed.

Lemma bp_scan_no_maxdiff py_float self lines r s :
  (forall l, In l lines -> startswith l "maxdiff" = false) ->
  exists s', bp_scan py_float self lines r s = (s', inr r).
Proof.
  revert s. induction lines as [| x t IH]; intros s H; [exists s; reflexivity |].
  cbn [bp_scan]. scan_step.
  rewrite (H x (or_introl eq_refl)).
  apply IH. intros l Hl. apply H. right. exact Hl.
Qed.

(** C4 (as amended): a [bpcomp] report without any [maxdiff] line leaves
    [bp_res] at 0, so the decision is "not converged" and nothing is raised;
    but once the scan reaches a [maxdiff] line whose last field [float()]
    rejects, it raises [ValueError], and once it reaches a parameter row of
    the [tracecomp] report whose effective size [float()] rejects, whose
    relative-difference field is missing, or whose relative difference
    [float()] rejects, it raises [ValueError], [IndexError] and [ValueError]
    respectively; none of these is caught by [check_convergence]. *)
Theorem C4_parse_failures_raise (py_float : string -> option Q) (self : PBStarter) :
  (forall lines r s,
     (forall l, In l lines -> startswith l "maxdiff" = false) ->
     exists s', bp_scan py_float self lines r s = (s', inr r))
  /\ (forall tr_res tr_line_number, converged 0 tr_res tr_line_number = false)
  /\ (forall pre l post r s s1 r1,
        bp_scan py_float self pre r s = (s1, inr r1) ->
        startswith l "maxdiff" = true ->
        py_float (last (split_ws (rstrip l)) ""%string) = None ->
        snd (bp_scan py_float self (pre ++ l :: post) r s) = inl (Raise ValueError))
  /\ (forall pre l post r n s s1 r1 n1,
        tr_scan py_float self pre r n s = (s1, inr (r1, n1)) ->
        is_parameter_row l = true ->
        let fields := split_ws (rstrip l) in
        (py_float (nth 1 fields ""%string) = None ->
         snd (tr_scan py_float self (pre ++ l :: post) r n s) = inl (Raise ValueError))
        /\ (py_float (nth 1 fields ""%string) <> None -> length fields = 2%nat ->
            snd (tr_scan py_float self (pre ++ l :: post) r n s) = inl (Raise IndexError))
        /\ (forall f2, py_float (nth 1 fields ""%string) <> None ->
            nth_error fields 2 = Some f2 -> py_float f2 = None ->
            snd (tr_scan py_float self (pre ++ l :: post) r n s) = inl (Raise ValueError))).
Proof.
  split; [intros lines r s H; exact (bp_scan_no_maxdiff py_float self lines r s H) |].
  split; [reflexivity |].
  split.
  { intros pre l post r s s1 r1 Hpre Hst Hf.
    rewrite (bp_scan_app_ok py_float self pre (l :: post) r s s1 r1 Hpre).
    cbn [bp_scan]. scan_step. rewrite Hst, Hf. reflexivity. }
  intros pre l post r n s s1 r1 n1 Hpre Hrow fields.
  rewrite (tr_scan_app_ok py_float self pre (l :: post) r n s s1 r1 n1 Hpre).
  unfold is_parameter_row in Hrow. fold fields in Hrow.
  apply andb_true_iff in Hrow. destruct Hrow as [Hlen Hname].
  apply negb_true_iff in Hname.
  cbn [tr_scan]. scan_step. fold fields. rewrite Hlen, Hname.
  split; [intros Hf1; rewrite Hf1; reflexivity |].
  split.
  - intros Hf1 H2. destruct (py_float (nth 1 fields ""%string)) as [e |]; [| contradiction].
    assert (Hn : nth_error fields 2 = None) by (apply nth_error_None; lia).
    destruct (Qle_bool _ e); scan_step; rewrite Hn; reflexivity.
  - intros f2 Hf1 Hn Hf2. destruct (py_float (nth 1 fields ""%string)) as [e |]; [| contradiction].
    destruct (Qle_bool _ e); scan_step; rewrite Hn, Hf2; reflexivity.
Qed.

Lemma C4_parse_failures_raise_witness :
  snd (bp_scan dec_float default_starter ([] ++ ["maxdiff    n/a"%string] ++ []) 0 init)
  = inl (Raise ValueError).
Proof.
  apply (proj1 (proj2 (proj2 (C4_parse_failures_raise dec_float default_starter)))
           [] "maxdiff    n/a"%string [] 0 init init 0).
  - reflexivity.
  - reflexivity.
  - vm_compute. reflexivity.
Defined.

(** C4 fails as stated: a non-numeric [maxdiff] value makes
    [check_convergence] raise [ValueError] instead of counting as "not
    converged". *)
Lemma C4_counterexample :
  snd (run_check world_bad_maxdiff default_starter 2 1) = inl (Raise ValueError).
Proof. vm_compute. reflexivity. Qed.

Lemma bp_scan_clock_systems py_float self lines r s :
  clock (fst (bp_scan py_float self lines r s)) = clock s
  /\ systems (log (fst (bp_scan py_float self lines r s))) = systems (log s).
Proof.
  revert r s. induction lines as [| x t IH]; intros r s; [split; reflexivity |].
  cbn [bp_scan]. scan_step.
  assert (Hp : forall m, systems (log s ++ [Print m]) = systems (log s))
    by (intros m; rewrite systems_app; apply app_nil_r).
  assert (Hq : forall m m', systems ((log s ++ [Print m]) ++ [Print m']) = systems (log s))
    by (intros m m'; rewrite !systems_app; simpl; rewrite !app_nil_r; reflexivity).
  destruct (startswith x "maxdiff").
  - destruct (py_float _) as [v |]; [| simpl; split; [reflexivity | apply Hp]].
    destruct (Qle_bool _ _); scan_step;
      (match goal with |- context [bp_scan py_float self t ?r' ?s'] =>
         destruct (IH r' s') as [Hc Hs] end;
       split; [rewrite Hc; reflexivity | rewrite Hs; apply Hq]).
  - match goal with |- context [bp_scan py_float self t ?r' ?s'] =>
      destruct (IH r' s') as [Hc Hs] end.
    split; [rewrite Hc; reflexivity | rewrite Hs; apply Hp].
Qed.

Lemma tr_scan_no_rows py_float self lines r n s :
  (forall l, In l lines -> is_parameter_row l = false) ->
  exists s', tr_scan py_float self lines r n s = (s', inr (r, n))
             /\ systems (log s') = systems (log s).
Proof.
  revert s. induction lines as [| x t IH]; intros s H; [exists s; split; reflexivity |].
  assert (Hx := H x (or_introl eq_refl)).
  assert (Ht : forall l, In l t -> is_parameter_row l = false) by (intros l Hl; apply H; right; exact Hl).
  cbn [tr_scan]. scan_step.
  unfold is_parameter_row in Hx.
  destruct (1 <? length (split_ws (rstrip x)))%nat; simpl in Hx.
  - apply negb_false_iff in Hx. rewrite Hx.
    match goal with |- context [tr_scan py_float self t r n ?s1] =>
      destruct (IH s1 Ht) as [s' [E Hs]] end.
    exists s'. split; [exact E |].
    rewrite Hs. simpl. rewrite systems_app. apply app_nil_r.
  - match goal with |- context [tr_scan py_float self t r n ?s1] =>
      destruct (IH s1 Ht) as [s' [E Hs]] end.
    exists s'. split; [exact E |].
    rewrite Hs. simpl. rewrite systems_app. apply app_nil_r.
Qed.

Lemma stop_all_spec infile pb_args chains processes s :
  exists s', stop_all infile pb_args chains processes s = (s', inr tt)
             /\ systems (log s') = systems (log s) ++ stoppb_commands infile pb_args chains processes.
Proof.
  unfold stop_all, stoppb_commands. generalize (range1 chains) as l.
  intros l. revert s. induction l as [| x t IH]; intros s.
  - exists s. split; [reflexivity | symmetry; apply app_nil_r].
  - cbn [for_each bind system emit].
    match goal with |- context [for_each t _ ?s1] => destruct (IH s1) as [s' [E Hs]] end.
    exists s'. split; [exact E |]. rewrite Hs. simpl. rewrite systems_app, <- app_assoc.
    reflexivity.
Qed.

Lemma systems_snoc_quiet l e :
  match e with System _ => False | _ => True end -> systems (l ++ [e]) = systems l.
Proof. intros H. rewrite systems_app. destruct e; try contradiction; apply app_nil_r. Qed.

(** C10: when no line of the [tracecomp] report is a parameter row (every
    line has fewer than two fields or is the [name] header), the pass
    counter and the line counter both stay 0, so the evaluation step of
    [check_convergence] decides on the [bpcomp] check alone: a passing
    [maxdiff] ([bp_res = 1]) stops every chain and exits 0, anything else
    returns without stopping a chain. *)
Theorem C10_no_rows_maxdiff_decides w py_float self infile pb_args chains processes m s b
  (Hbp : forall s',
     snd (bp_scan py_float self
            (splitlines (run w (bpcomp_cmd infile pb_args chains processes (Z.quot m 4)) (clock s)))
            0 s') = inr b)
  (Hrows : forall l,
     In l (splitlines (run w (tracecomp_cmd infile pb_args chains processes (Z.quot m 4)) (clock s))) ->
     is_parameter_row l = false) :
  snd (evaluate w py_float self infile pb_args chains processes m s)
    = (if b =? 1 then inl (Exit 0) else inr tt)
  /\ systems (log (fst (evaluate w py_float self infile pb_args chains processes m s)))
    = systems (log s) ++ (if b =? 1 then stoppb_commands infile pb_args chains processes else []).
Proof.
  unfold evaluate.
  erewrite bind_ok by reflexivity.
  erewrite bind_ok by reflexivity.
  cbn [log clock].
  match goal with |- context [bind (bp_scan py_float self ?ls 0) _ ?s2] =>
    destruct (bp_scan py_float self ls 0 s2) as [s3 [h | b']] eqn:E;
    [specialize (Hbp s2); rewrite E in Hbp; discriminate Hbp |];
    pose proof (bp_scan_clock_systems py_float self ls 0 s2) as Hcs;
    specialize (Hbp s2); rewrite E in Hbp; injection Hbp as ->
  end.
  rewrite E in Hcs. destruct Hcs as [Hc3 Hs3]. cbn [fst log clock] in Hc3, Hs3.
  erewrite bind_ok by exact E.
  erewrite bind_ok by reflexivity.
  erewrite bind_ok by reflexivity.
  rewrite Hc3.
  cbn [log clock].
  match goal with |- context [bind (tr_scan py_float self ?ls 0 0) _ ?s4] =>
    destruct (tr_scan_no_rows py_float self ls 0 0 s4 Hrows) as [s5 [E5 Hs5]]
  end.
  erewrite bind_ok by exact E5.
  unfold converged. rewrite Z.eqb_refl, andb_true_r.
  assert (Hs : systems (log s5) = systems (log s)).
  { rewrite Hs5. cbn [log]. rewrite !systems_snoc_quiet by exact I. rewrite Hs3.
    rewrite !systems_snoc_quiet by exact I. reflexivity. }
  destruct (b =? 1).
  - destruct (stop_all_spec infile pb_args chains processes s5) as [s6 [E6 Hs6]].
    erewrite bind_ok by exact E6. cbn [sys_exit fst snd].
    split; [reflexivity |]. rewrite Hs6, Hs. reflexivity.
  - cbn [ret fst snd]. split; [reflexivity |]. rewrite Hs. symmetry. apply app_nil_r.
Qed.

Lemma C10_no_rows_maxdiff_decides_witness :
  snd (evaluate world_no_rows dec_float default_starter "aln.phy" "-cat -gtr" 2 1 7000 init)
  = inl (Exit 0).
Proof.
  refine (proj1 (C10_no_rows_maxdiff_decides world_no_rows dec_float default_starter
                   "aln.phy" "-cat -gtr" 2 1 7000 init 1 _ _)).
  - intros s'. vm_compute. reflexivity.
  - intros l Hl. vm_compute in Hl. destruct Hl as [<- | []]. vm_compute. reflexivity.
Defined.

(** ** Further properties of the code *)

Lemma chars_app (s1 s2 : string) : chars (s1 ++ s2) = chars s1 ++ chars s2.
Proof. induction s1 as [| c s1 IH]; simpl; [reflexivity | unfold chars in *; now rewrite IH]. Qed.

Lemma chars_of_chars (l : list ascii) : chars (of_chars l) = l.
Proof. apply list_ascii_of_string_of_list_ascii. Qed.

Lemma of_chars_chars (s : string) : of_chars (chars s) = s.
Proof. apply string_of_list_ascii_of_string. Qed.

Lemma str_app_assoc (a b c : string) : ((a ++ b) ++ c)%string = (a ++ b ++ c)%string.
Proof. induction a as [| x a IH]; simpl; [reflexivity | now rewrite IH]. Qed.

Lemma str_app_inv_l (s a b : string) : (s ++ a)%string = (s ++ b)%string -> a = b.
Proof. induction s as [| x s IH]; simpl; [tauto | intros H; injection H; exact IH]. Qed.

Lemma forallb_rev {A} (p : A -> bool) (l : list A) : forallb p (rev l) = forallb p l.
Proof.
  induction l as [| x l IH]; simpl; [reflexivity |].
  rewrite forallb_app, IH; simpl. rewrite andb_true_r. apply andb_comm.
Qed.

Lemma existsb_rev {A} (p : A -> bool) (l : list A) : existsb p (rev l) = existsb p l.
Proof.
  induction l as [| x l IH]; simpl; [reflexivity |].
  rewrite existsb_app, IH; simpl. rewrite orb_false_r. apply orb_comm.
Qed.

Lemma drop_while_all (p : ascii -> bool) l m :
  forallb p l = true -> drop_while p (l ++ m) = drop_while p m.
Proof.
  induction l as [| x l IH]; simpl; [reflexivity |].
  intros H. apply andb_true_iff in H as [-> H]. exact (IH H).
Qed.

Lemma take_while_all (p : ascii -> bool) l m :
  forallb p l = true -> take_while p (l ++ m) = l ++ take_while p m.
Proof.
  induction l as [| x l IH]; simpl; [reflexivity |].
  intros H. apply andb_true_iff in H as [-> H]. now rewrite (IH H).
Qed.

Lemma slash_free_tokens (f : string) :
  forallb not_slash (chars f) = true -> dirname f = ""%string /\ basename f = f.
Proof.
  intros Hf. rewrite <- forallb_rev in Hf. unfold dirname, basename.
  rewrite <- (app_nil_r (rev (chars f))).
  rewrite drop_while_all, take_while_all by exact Hf. simpl.
  rewrite !app_nil_r, !rev_involutive. split; [reflexivity | apply of_chars_chars].
Qed.

Lemma dir_tokens (d f : string) :
  ends_without_slash d = true -> forallb not_slash (chars f) = true ->
  dirname (d ++ "/" ++ f) = d /\ basename (d ++ "/" ++ f) = f.
Proof.
  intros Hd Hf. rewrite <- forallb_rev in Hf. unfold ends_without_slash in Hd.
  assert (Hr : rev (chars (d ++ "/" ++ f)) = rev (chars f) ++ slash :: rev (chars d)).
  { rewrite !chars_app, !rev_app_distr, <- app_assoc. reflexivity. }
  unfold dirname, basename. rewrite Hr.
  rewrite drop_while_all, take_while_all by exact Hf. cbn [drop_while take_while].
  replace (not_slash slash) with false by reflexivity.
  rewrite app_nil_r. split; [| rewrite rev_involutive; apply of_chars_chars].
  destruct (rev (chars d)) as [| x r] eqn:E; [discriminate Hd |].
  unfold not_slash in Hd. apply negb_true_iff in Hd.
  assert (Hfa : forallb (fun c => Ascii.eqb c slash) (rev (slash :: x :: r)) = false).
  { rewrite forallb_rev. simpl. rewrite Hd. reflexivity. }
  rewrite Hfa, rev_involutive. cbn [negb drop_while]. rewrite Hd.
  replace (Ascii.eqb slash slash) with true by reflexivity.
  rewrite <- E, rev_involutive. apply of_chars_chars.
Qed.

Lemma gof_chain_suffix (filepath pb_args : string) (processes i : Z) :
  i <> 0 ->
  generate_output_filename filepath pb_args processes i
  = (generate_output_filename filepath pb_args processes 0 ++ "_chain" ++ str_int i)%string.
Proof.
  intros Hi. unfold generate_output_filename.
  destruct (create_tokens_from_filepath filepath) as [[dirbase filename] base].
  replace (i =? 0) with false by (symmetry; apply Z.eqb_neq; exact Hi). reflexivity.
Qed.

(** [pb_args] enters the output names with its whitespace removed and its
    dashes replaced by underscores: the postfix holds no whitespace and no
    ['-']. *)
Theorem pb_postfix_clean (pb_args : string) (c : ascii) :
  In c (chars (dash_to_underscore (remove_ws pb_args))) ->
  is_space c = false /\ c <> "-"%char.
Proof.
  intros H. unfold dash_to_underscore, remove_ws in H.
  rewrite chars_of_chars in H. apply in_map_iff in H as [c0 [Hc Hin]].
  rewrite chars_of_chars in Hin. apply filter_In in Hin as [_ Hs].
  apply negb_true_iff in Hs.
  destruct (Ascii.eqb c0 "-"%char) eqn:E; subst c.
  - split; [reflexivity | discriminate].
  - split; [exact Hs | intros ->; discriminate E].
Qed.

Lemma pb_postfix_clean_witness :
  In "c"%char (chars (dash_to_underscore (remove_ws " -cat  -gtr")))
  /\ is_space "c"%char = false /\ "c"%char <> "-"%char.
Proof.
  split; [vm_compute; tauto |].
  apply (pb_postfix_clean " -cat  -gtr" "c"%char). vm_compute. tauto.
Defined.

(** The directory part of the alignment path is kept: for a directory [d]
    not ending in ['/'] and a file name [f] without ['/'], the output name
    of [d/f] is [d/] followed by the output name of [f]. *)
Theorem generate_output_filename_keeps_dir (d f pb_args : string) (processes i : Z)
  (Hd : ends_without_slash d = true) (Hf : forallb not_slash (chars f) = true) :
  generate_output_filename (d ++ "/" ++ f) pb_args processes i
  = (d ++ "/" ++ generate_output_filename f pb_args processes i)%string.
Proof.
  destruct (dir_tokens d f Hd Hf) as [Hdn Hbn].
  destruct (slash_free_tokens f Hf) as [Hdn' Hbn'].
  unfold generate_output_filename, create_tokens_from_filepath.
  rewrite Hdn, Hbn, Hdn', Hbn'.
  destruct d as [| x d]; [discriminate Hd |].
  destruct (i =? 0); [reflexivity |].
  rewrite !str_app_assoc. reflexivity.
Qed.

Lemma generate_output_filename_keeps_dir_witness :
  (ends_without_slash "runs" = true /\ forallb not_slash (chars "aln.phy") = true)
  /\ generate_output_filename "runs/aln.phy" "-cat -gtr" 4 2
     = ("runs" ++ "/" ++ generate_output_filename "aln.phy" "-cat -gtr" 4 2)%string.
Proof.
  split; [split; reflexivity |].
  apply (generate_output_filename_keeps_dir "runs" "aln.phy" "-cat -gtr" 4 2); reflexivity.
Defined.

Lemma chr_digit (d : Z) : 0 <= d < 10 -> nat_of_ascii (chr (48 + Z.to_nat d)) = (48 + Z.to_nat d)%nat.
Proof. intros Hd. unfold chr. apply nat_ascii_embedding. lia. Qed.

Lemma dec_value_cons c l v :
  dec_value (c :: l) v = dec_value l (v * 10 + (Z.of_nat (nat_of_ascii c) - 48)).
Proof. reflexivity. Qed.

Lemma dec_digits_value fuel n acc :
  0 <= n < 10 ^ Z.of_nat fuel ->
  dec_value (chars (dec_digits fuel n acc)) 0 = dec_value (chars acc) n.
Proof.
  revert n acc. induction fuel as [| f IH]; intros n acc Hn.
  - simpl in Hn. replace n with 0 by lia. reflexivity.
  - rewrite Nat2Z.inj_succ, Z.pow_succ_r in Hn by lia.
    pose proof (Z.mod_pos_bound n 10 ltac:(lia)) as Hd.
    pose proof (Z.div_mod n 10 ltac:(lia)) as Hdm.
    cbn [dec_digits]. destruct (n / 10 =? 0) eqn:E.
    + apply Z.eqb_eq in E. change (chars (String ?c ?s)) with (c :: chars s).
      rewrite dec_value_cons, chr_digit by exact Hd. f_equal. lia.
    + apply Z.eqb_neq in E. rewrite IH.
      * change (chars (String ?c ?s)) with (c :: chars s).
        rewrite dec_value_cons, chr_digit by exact Hd. f_equal. lia.
      * split; [apply Z.div_pos; lia | apply Z.div_lt_upper_bound; lia].
Qed.

Lemma dec_digits_chars fuel n acc c :
  In c (chars (dec_digits fuel n acc)) ->
  In c (chars acc) \/ (48 <= nat_of_ascii c < 58)%nat.
Proof.
  revert n acc. induction fuel as [| f IH]; intros n acc H; [left; exact H |].
  pose proof (Z.mod_pos_bound n 10 ltac:(lia)) as Hd.
  cbn [dec_digits] in H.
  assert (Hacc : In c (chars (String (chr (48 + Z.to_nat (n mod 10))) acc)) ->
                 In c (chars acc) \/ (48 <= nat_of_ascii c < 58)%nat).
  { change (chars (String ?x ?s)) with (x :: chars s). intros [<- | Hin].
    - right. rewrite chr_digit by exact Hd. lia.
    - left. exact Hin. }
  destruct (n / 10 =? 0); [exact (Hacc H) |].
  destruct (IH _ _ H) as [H1 | H1]; [exact (Hacc H1) | right; exact H1].
Qed.

Lemma str_nonneg_value n : 0 <= n -> dec_value (chars (str_nonneg n)) 0 = n.
Proof.
  intros Hn. unfold str_nonneg. rewrite dec_digits_value; [reflexivity |].
  split; [exact Hn |].
  rewrite Nat2Z.inj_succ, Z2Nat.id by apply Z.log2_nonneg.
  apply Z.lt_le_trans with (2 ^ Z.succ (Z.log2 n)).
  - destruct (Z.eq_dec n 0) as [-> | Hn0]; [reflexivity |].
    apply Z.log2_spec. lia.
  - apply Z.pow_le_mono_l. lia.
Qed.

Lemma str_nonneg_digits n c :
  In c (chars (str_nonneg n)) -> (48 <= nat_of_ascii c < 58)%nat.
Proof.
  intros H. destruct (dec_digits_chars _ _ _ _ H) as [[] | H1]. exact H1.
Qed.

Lemma str_int_inj (i j : Z) : str_int i = str_int j -> i = j.
Proof.
  unfold str_int. intros H.
  destruct (i <? 0) eqn:Ei, (j <? 0) eqn:Ej;
    rewrite ?Z.ltb_lt, ?Z.ltb_ge in Ei, Ej.
  - simpl in H. injection H as H.
    apply (f_equal (fun s => dec_value (chars s) 0)) in H.
    rewrite !str_nonneg_value in H by lia. lia.
  - exfalso. assert (Hm : In "-"%char (chars (str_nonneg j))) by (rewrite <- H; left; reflexivity).
    apply str_nonneg_digits in Hm. change (nat_of_ascii "-"%char) with 45%nat in Hm. lia.
  - exfalso. assert (Hm : In "-"%char (chars (str_nonneg i))) by (rewrite H; left; reflexivity).
    apply str_nonneg_digits in Hm. change (nat_of_ascii "-"%char) with 45%nat in Hm. lia.
  - apply (f_equal (fun s => dec_value (chars s) 0)) in H.
    rewrite !str_nonneg_value in H by lia. exact H.
Qed.

(** Distinct chain numbers give distinct output prefixes, and no chain
    shares the prefix of the combined diagnostics (chain number 0): the
    output prefixes of [generate_output_filename] for the same alignment,
    arguments and process count are equal exactly when the chain numbers
    are. *)
Theorem generate_output_filename_chain_inj (filepath pb_args : string) (processes i j : Z) :
  generate_output_filename filepath pb_args processes i
  = generate_output_filename filepath pb_args processes j <-> i = j.
Proof.
  split; [| intros ->; reflexivity]. intros H.
  destruct (Z.eq_dec i 0) as [-> | Hi], (Z.eq_dec j 0) as [-> | Hj]; [reflexivity | | |].
  - exfalso. rewrite (gof_chain_suffix _ _ _ j Hj) in H.
    set (g := generate_output_filename filepath pb_args processes 0) in H.
    apply (f_equal String.length) in H. rewrite !str_length_app in H. simpl in H. lia.
  - exfalso. rewrite (gof_chain_suffix _ _ _ i Hi) in H.
    set (g := generate_output_filename filepath pb_args processes 0) in H.
    apply (f_equal String.length) in H. rewrite !str_length_app in H. simpl in H. lia.
  - rewrite (gof_chain_suffix _ _ _ i Hi), (gof_chain_suffix _ _ _ j Hj) in H.
    apply str_app_inv_l in H. apply (str_app_inv_l "_chain") in H.
    apply str_int_inj. exact H.
Qed.

Lemma splitext_root_last_dot (r e : string) :
  forallb not_dot (chars e) = true ->
  splitext_root (r ++ "." ++ e) = if existsb not_dot (chars r) then r else (r ++ "." ++ e)%string.
Proof.
  intros He. rewrite <- forallb_rev in He. unfold splitext_root.
  assert (Hr : rev (chars (r ++ "." ++ e)) = rev (chars e) ++ dot :: rev (chars r)).
  { rewrite !chars_app, !rev_app_distr, <- app_assoc. reflexivity. }
  rewrite Hr, drop_while_all by exact He.
  replace (drop_while (fun c => negb (c =? dot)%char) (dot :: rev (chars r)))
    with (dot :: rev (chars r)) by reflexivity.
  change (fun c => negb (c =? dot)%char) with not_dot. rewrite existsb_rev.
  destruct (existsb not_dot (chars r)); [| reflexivity].
  rewrite rev_involutive. apply of_chars_chars.
Qed.

(** [create_tokens_from_filepath] splits [d/r.e] (a directory [d] not
    ending in ['/'], a file name [r.e] without ['/'], an extension [e]
    without ['.']) into [d], [r.e] and the root [r]; when [r] consists of
    dots only (a hidden file such as [.phy]) the root is the whole file
    name. *)
Theorem create_tokens_from_filepath_split (d r e : string)
  (Hd : ends_without_slash d = true)
  (Hr : forallb not_slash (chars r) = true)
  (He : forallb not_slash (chars e) = true)
  (Hdot : forallb not_dot (chars e) = true) :
  create_tokens_from_filepath (d ++ "/" ++ r ++ "." ++ e)
  = (d, (r ++ "." ++ e)%string, if existsb not_dot (chars r) then r else (r ++ "." ++ e)%string).
Proof.
  assert (Hf : forallb not_slash (chars (r ++ "." ++ e)) = true).
  { rewrite !chars_app, !forallb_app, Hr, He. reflexivity. }
  destruct (dir_tokens d _ Hd Hf) as [Hdn Hbn].
  unfold create_tokens_from_filepath. rewrite Hdn, Hbn, splitext_root_last_dot by exact Hdot.
  reflexivity.
Qed.

Lemma create_tokens_from_filepath_split_witness :
  (ends_without_slash "runs" = true /\ forallb not_slash (chars "aln") = true
   /\ forallb not_slash (chars "phy") = true /\ forallb not_dot (chars "phy") = true)
  /\ create_tokens_from_filepath ("runs" ++ "/" ++ "aln" ++ "." ++ "phy")
     = ("runs"%string, ("aln" ++ "." ++ "phy")%string,
        if existsb not_dot (chars "aln") then "aln"%string else ("aln" ++ "." ++ "phy")%string).
Proof.
  split; [repeat split; reflexivity |].
  apply create_tokens_from_filepath_split; reflexivity.
Defined.

Lemma translate_newlines_plain (l t : list ascii) :
  forallb no_eol l = true -> translate_newlines (l ++ t) = l ++ translate_newlines t.
Proof.
  induction l as [| c l IH]; simpl; [reflexivity |].
  intros H. apply andb_true_iff in H as [Hc H]. unfold no_eol in Hc.
  apply andb_true_iff in Hc as [_ Hc]. apply negb_true_iff in Hc.
  rewrite Hc, IH by exact H. reflexivity.
Qed.

Lemma file_lines_aux_plain (l cur : list ascii) :
  forallb no_eol l = true ->
  length (file_lines_aux l cur) = (if (length l + length cur =? 0)%nat then 0 else 1)%nat.
Proof.
  revert cur. induction l as [| c l IH]; intros cur H; simpl.
  - destruct cur; reflexivity.
  - apply andb_true_iff in H as [Hc H]. unfold no_eol in Hc.
    apply andb_true_iff in Hc as [Hc _]. apply negb_true_iff in Hc.
    rewrite Hc, IH by exact H. simpl. rewrite Nat.add_succ_r. reflexivity.
Qed.

Lemma file_lines_aux_line (l t cur : list ascii) :
  forallb no_eol l = true ->
  length (file_lines_aux (l ++ LF :: t) cur) = S (length (file_lines_aux t [])).
Proof.
  revert cur. induction l as [| c l IH]; intros cur H; simpl.
  - reflexivity.
  - apply andb_true_iff in H as [Hc H]. unfold no_eol in Hc.
    apply andb_true_iff in Hc as [Hc _]. apply negb_true_iff in Hc.
    rewrite Hc. apply IH. exact H.
Qed.

Lemma text_file_cons r crlf rows last :
  text_file ((r, crlf) :: rows) last = (r ++ (if crlf then String CR nl else nl) ++ text_file rows last)%string.
Proof. reflexivity. Qed.

Lemma translate_crlf t : translate_newlines (CR :: LF :: t) = LF :: translate_newlines t.
Proof. reflexivity. Qed.

Lemma translate_lf t : translate_newlines (LF :: t) = LF :: translate_newlines t.
Proof. reflexivity. Qed.

Lemma text_file_translated (rows : list (string * bool)) (last : string) :
  Forall (fun r => forallb no_eol (chars r) = true) (last :: List.map fst rows) ->
  translate_newlines (chars (text_file rows last))
  = flat_map (fun row => chars (fst row) ++ [LF]) rows ++ chars last.
Proof.
  intros H. induction rows as [| [r crlf] rows IH].
  - inversion H as [| ? ? Hl _]. cbn [text_file fold_right flat_map app].
    rewrite <- (app_nil_r (chars last)) at 1.
    rewrite translate_newlines_plain by exact Hl. apply app_nil_r.
  - inversion H as [| ? ? Hl Hrs]. inversion Hrs as [| ? ? Hr Hrows].
    rewrite text_file_cons, chars_app, translate_newlines_plain by exact Hr.
    cbn [flat_map fst]. rewrite <- !app_assoc. apply f_equal.
    assert (IH' := IH ltac:(constructor; assumption)).
    destruct crlf.
    + change (chars (String CR nl ++ text_file rows last))
        with (CR :: LF :: chars (text_file rows last)).
      rewrite translate_crlf, IH'. reflexivity.
    + change (chars (nl ++ text_file rows last)) with (LF :: chars (text_file rows last)).
      rewrite translate_lf, IH'. reflexivity.
Qed.

Lemma file_lines_aux_rows (rows : list (string * bool)) (t : list ascii) :
  Forall (fun r => forallb no_eol (chars r) = true) (List.map fst rows) ->
  length (file_lines_aux (flat_map (fun row => chars (fst row) ++ [LF]) rows ++ t) [])
  = (length rows + length (file_lines_aux t []))%nat.
Proof.
  induction rows as [| [r crlf] rows IH]; intros H; [reflexivity |].
  inversion H as [| ? ? Hr Hrows]. cbn [flat_map fst length].
  rewrite <- !app_assoc. cbn [app]. rewrite file_lines_aux_line by exact Hr.
  rewrite IH by exact Hrows. reflexivity.
Qed.

(** Counting the lines of a sample file ([sum(1 for line in open(...))])
    counts its rows: every row ended by ["\n"] or ["\r\n"] counts once, and
    an unterminated last piece counts once when it is not empty. *)
Theorem file_lines_count (rows : list (string * bool)) (last : string)
  (Hrows : Forall (fun r => forallb no_eol (chars r) = true) (last :: List.map fst rows)) :
  length (file_lines (text_file rows last))
  = (length rows + if String.eqb last "" then 0 else 1)%nat.
Proof.
  unfold file_lines. rewrite text_file_translated by exact Hrows.
  inversion Hrows as [| ? ? Hl Hr].
  rewrite file_lines_aux_rows by exact Hr. f_equal.
  rewrite file_lines_aux_plain by exact Hl. destruct last; reflexivity.
Qed.

Lemma file_lines_count_witness :
  Forall (fun r => forallb no_eol (chars r) = true)
    ("0.3 0.4"%string :: List.map fst [("0.1 0.2"%string, false); ("0.2 0.3"%string, true)])
  /\ length (file_lines (text_file [("0.1 0.2"%string, false); ("0.2 0.3"%string, true)] "0.3 0.4"))
     = (length [("0.1 0.2"%string, false); ("0.2 0.3"%string, true)]
        + if String.eqb "0.3 0.4" "" then 0 else 1)%nat.
Proof.
  split; [repeat constructor |].
  apply file_lines_count. repeat constructor.
Defined.

Lemma map_m_count_spec w self infile pb_args processes (cs : Z -> string) (l : list Z) s :
  (forall i, In i l ->
     fs w (generate_output_filename infile pb_args processes i ++ ".trace") = Some (cs i)) ->
  map_m (count_chain w self infile pb_args processes) l s
  = ({| log := log s ++ flat_map (fun i =>
          if Z.of_nat (length (file_lines (cs i))) >? MAX_SAMPLE_SIZE self
          then [System ("stoppb " ++ generate_output_filename infile pb_args processes i)]
          else []) l;
        clock := clock s |},
     inr (List.map (fun i => Z.of_nat (length (file_lines (cs i)))) l)).
Proof.
  revert s. induction l as [| x t IH]; intros s Hfs.
  - destruct s as [lg c]. simpl. rewrite app_nil_r. reflexivity.
  - cbn [map_m flat_map List.map]. unfold bind at 1.
    unfold count_chain at 1. rewrite (Hfs x (or_introl eq_refl)).
    destruct (Z.of_nat (length (file_lines (cs x))) >? MAX_SAMPLE_SIZE self);
      cbn [bind system emit ret log clock]; unfold bind;
      rewrite IH by (intros i Hi; apply Hfs; right; exact Hi);
      unfold ret; cbn [log clock]; rewrite <- ?app_assoc; reflexivity.
Qed.

(** Counting the samples reads every chain's [.trace] file once: the counts
    returned are the files' line counts in chain order, and a [stoppb]
    command is issued exactly for the chains whose count exceeds
    [MAX_SAMPLE_SIZE] (strictly), in chain order, with nothing else logged
    and no time spent. *)
Theorem count_samples_spec w self infile pb_args (chains processes : Z) (cs : Z -> string) s
  (Hfs : forall i, In i (range1 chains) ->
     fs w (generate_output_filename infile pb_args processes i ++ ".trace") = Some (cs i)) :
  count_samples w self infile pb_args chains processes s
  = ({| log := log s ++ flat_map (fun i =>
          if Z.of_nat (length (file_lines (cs i))) >? MAX_SAMPLE_SIZE self
          then [System ("stoppb " ++ generate_output_filename infile pb_args processes i)]
          else []) (range1 chains);
        clock := clock s |},
     inr (List.map (fun i => Z.of_nat (length (file_lines (cs i)))) (range1 chains))).
Proof. apply map_m_count_spec. exact Hfs. Qed.

Lemma count_samples_spec_witness :
  (forall i, In i (range1 2) ->
     fs (diag_world "aln.phy" "-cat -gtr" 1 3 5 "" "")
        (generate_output_filename "aln.phy" "-cat -gtr" 1 i ++ ".trace")
     = Some (if i =? 1 then trace_file 3 else trace_file 5))
  /\ count_samples (diag_world "aln.phy" "-cat -gtr" 1 3 5 "" "") default_starter
       "aln.phy" "-cat -gtr" 2 1 init
     = ({| log := log init ++ flat_map (fun i =>
             if Z.of_nat (length (file_lines (if i =? 1 then trace_file 3 else trace_file 5)))
                >? MAX_SAMPLE_SIZE default_starter
             then [System ("stoppb " ++ generate_output_filename "aln.phy" "-cat -gtr" 1 i)]
             else []) (range1 2);
           clock := clock init |},
        inr (List.map (fun i => Z.of_nat (length (file_lines
               (if i =? 1 then trace_file 3 else trace_file 5)))) (range1 2))).
Proof.
  assert (H : forall i, In i (range1 2) ->
     fs (diag_world "aln.phy" "-cat -gtr" 1 3 5 "" "")
        (generate_output_filename "aln.phy" "-cat -gtr" 1 i ++ ".trace")
     = Some (if i =? 1 then trace_file 3 else trace_file 5))
    by (intros i [<- | [<- | []]]; vm_compute; reflexivity).
  split; [exact H | apply count_samples_spec; exact H].
Defined.

Lemma start_chain_no_slurm w infile pb_args processes i s :
  env w "SLURM_ARRAY_JOB_ID" = None -> env w "SLURM_JOB_ID" = None ->
  start_chain w infile pb_args processes i s
  = ({| log := log s ++
          [Print ("Following pb chain is going to be started: "
                  ++ generate_output_filename infile pb_args processes i);
           System (launch_command w infile pb_args processes i)];
        clock := clock s |}, inr tt).
Proof.
  intros Ha Hj. unfold start_chain, get_slurm_job_id, launch_command. rewrite Ha, Hj.
  cbn [bind print system emit ret uses_slurm log clock]. rewrite <- app_assoc. reflexivity.
Qed.

(** Without Slurm ([SLURM_ARRAY_JOB_ID] and [SLURM_JOB_ID] unset)
    [start_pb_jobs] launches every chain in order and returns: for each
    chain it prints the chain's output prefix and issues its launch command,
    and it never queries [sacct], never sleeps and never exits. *)
Theorem start_pb_jobs_no_slurm w infile pb_args (chains processes : Z) s
  (Ha : env w "SLURM_ARRAY_JOB_ID" = None) (Hj : env w "SLURM_JOB_ID" = None) :
  start_pb_jobs w infile pb_args chains processes s
  = ({| log := log s ++ flat_map (fun i =>
          [Print ("Following pb chain is going to be started: "
                  ++ generate_output_filename infile pb_args processes i);
           System (launch_command w infile pb_args processes i)]) (range1 chains);
        clock := clock s |}, inr tt).
Proof.
  unfold start_pb_jobs. generalize (range1 chains) as l. intros l. revert s.
  induction l as [| x t IH]; intros s.
  - destruct s as [lg c]. simpl. rewrite app_nil_r. reflexivity.
  - cbn [for_each flat_map]. unfold bind at 1.
    rewrite start_chain_no_slurm by assumption. rewrite IH. cbn [log clock].
    rewrite <- app_assoc. reflexivity.
Qed.

Lemma start_pb_jobs_no_slurm_witness :
  (env world_empty "SLURM_ARRAY_JOB_ID" = None /\ env world_empty "SLURM_JOB_ID" = None)
  /\ start_pb_jobs world_empty "aln.phy" "-cat -gtr" 2 1 init
     = ({| log := log init ++ flat_map (fun i =>
             [Print ("Following pb chain is going to be started: "
                     ++ generate_output_filename "aln.phy" "-cat -gtr" 1 i);
              System (launch_command world_empty "aln.phy" "-cat -gtr" 1 i)]) (range1 2);
           clock := clock init |}, inr tt).
Proof.
  split; [split; reflexivity |].
  apply start_pb_jobs_no_slurm; reflexivity.
Defined.

Lemma range1_first (n : Z) : 1 <= n -> exists t, range1 n = 1 :: t.
Proof.
  intros Hn. unfold range1. destruct (Z.to_nat n) as [| k] eqn:E; [lia |].
  exists (List.map Z.of_nat (seq 2 k)). reflexivity.
Qed.

(** Inside a Slurm job array whose task id is missing
    ([SLURM_ARRAY_JOB_ID] set, [SLURM_ARRAY_TASK_ID] unset), building the
    job id concatenates [None] and raises [TypeError]:
    [check_convergence] raises it before any effect, and [start_pb_jobs]
    raises it right after issuing the launch command of chain 1. *)
Theorem array_job_without_task_raises w (a : string)
  (Ha : env w "SLURM_ARRAY_JOB_ID" = Some a) (Ht : env w "SLURM_ARRAY_TASK_ID" = None) :
  (forall py_float self infile pb_args chains processes s,
     check_convergence w py_float self infile pb_args chains processes s
     = (s, inl (Raise TypeError)))
  /\ (forall infile pb_args chains processes s, 1 <= chains ->
        start_pb_jobs w infile pb_args chains processes s
        = ({| log := log s ++
                [Print ("Following pb chain is going to be started: "
                        ++ generate_output_filename infile pb_args processes 1);
                 System (launch_command w infile pb_args processes 1)];
              clock := clock s |}, inl (Raise TypeError))).
Proof.
  assert (Hjob : forall s, get_slurm_job_id w s = (s, inl (Raise TypeError))).
  { intros s. unfold get_slurm_job_id. rewrite Ha, Ht. reflexivity. }
  split.
  - intros py_float self infile pb_args chains processes s.
    unfold check_convergence, bind at 1. rewrite Hjob. reflexivity.
  - intros infile pb_args chains processes s Hc.
    destruct (range1_first chains Hc) as [t Ht1].
    unfold start_pb_jobs. rewrite Ht1. cbn [for_each]. unfold bind at 1.
    unfold start_chain, launch_command. cbn [bind print system emit].
    unfold bind at 1. rewrite Hjob. cbn [log clock]. rewrite <- app_assoc. reflexivity.
Qed.

Lemma array_job_without_task_raises_witness :
  (env world_array_no_task "SLURM_ARRAY_JOB_ID" = Some "42"%string
   /\ env world_array_no_task "SLURM_ARRAY_TASK_ID" = None)
  /\ check_convergence world_array_no_task dec_float default_starter "aln.phy" "-cat -gtr" 2 1 init
     = (init, inl (Raise TypeError)).
Proof.
  split; [split; reflexivity |].
  apply (array_job_without_task_raises world_array_no_task "42"); reflexivity.
Defined.

Lemma in_range1 (k n : Z) : In k (range1 n) <-> 1 <= k <= n.
Proof.
  unfold range1. rewrite in_map_iff. split.
  - intros [m [<- Hm]]. apply in_seq in Hm. lia.
  - intros Hk. exists (Z.to_nat k). split; [lia |]. apply in_seq. lia.
Qed.

Lemma range1_succ (n : nat) :
  range1 (Z.of_nat (S n)) = 1 :: List.map (Z.add 1) (range1 (Z.of_nat n)).
Proof.
  unfold range1. rewrite !Nat2Z.id. cbn [seq List.map]. f_equal.
  rewrite map_map, <- seq_shift, map_map. apply map_ext. intros a. lia.
Qed.

Lemma existsb_map_comp {A B} (f : A -> B) (p : B -> bool) (l : list A) :
  existsb p (List.map f l) = existsb (fun x => p (f x)) l.
Proof. induction l as [| x l IH]; simpl; [reflexivity | now rewrite IH]. Qed.

Lemma existsb_ext_in {A} (p q : A -> bool) (l : list A) :
  (forall x, p x = q x) -> existsb p l = existsb q l.
Proof. intros H. induction l as [| x l IH]; simpl; [reflexivity | now rewrite H, IH]. Qed.

Lemma wait_for_srun_S w f sub waited max_wait :
  wait_for_srun w (S f) sub waited max_wait
  = (sleep 1 ;;
     first_line <- sacct_first_line w sub ;;
     if negb (is_blank first_line) then ret tt
     else
       print ("Waiting for srun to start for " ++ sub)%string ;;
       if waited + 1 >? max_wait then
         print ("Max waiting time reached, srun did not start for " ++ sub)%string ;;
         print "Wasn't able to start every subtask, exiting..." ;;
         sys_exit 3
       else wait_for_srun w f sub (waited + 1) max_wait).
Proof. reflexivity. Qed.

Lemma wait_for_srun_outcome w (f : nat) sub (waited max_wait : Z) s :
  max_wait = waited + Z.of_nat f ->
  snd (wait_for_srun w (S f) sub waited max_wait s)
  = if existsb (fun k => negb (is_blank (first_line_of
                  (run w ("sacct -n -j " ++ sub)%string (clock s + k)))))
               (range1 (Z.of_nat (S f)))
    then inr tt else inl (Exit 3).
Proof.
  revert waited s. induction f as [| f IH]; intros waited s Hmw.
  - cbn [wait_for_srun bind sleep sacct_first_line popen ret log clock].
    fold (first_line_of (run w ("sacct -n -j " ++ sub)%string (clock s + 1))).
    rewrite range1_succ. cbn [existsb List.map range1 seq Z.to_nat Z.of_nat].
    destruct (negb (is_blank (first_line_of (run w ("sacct -n -j " ++ sub)%string (clock s + 1)))));
      [reflexivity |].
    replace (waited + 1 >? max_wait) with true by (symmetry; apply Z.gtb_lt; lia).
    reflexivity.
  - rewrite wait_for_srun_S.
    cbn [bind sleep sacct_first_line popen ret log clock].
    fold (first_line_of (run w ("sacct -n -j " ++ sub)%string (clock s + 1))).
    rewrite range1_succ. cbn [existsb]. rewrite existsb_map_comp.
    destruct (negb (is_blank (first_line_of (run w ("sacct -n -j " ++ sub)%string (clock s + 1)))));
      [reflexivity |].
    replace (waited + 1 >? max_wait) with false by (symmetry; rewrite Z.gtb_ltb; apply Z.ltb_ge; lia).
    cbn [bind print emit]. rewrite (IH (waited + 1)) by lia. cbn [clock orb].
    rewrite (existsb_ext_in _ (fun k => negb (is_blank (first_line_of
                  (run w ("sacct -n -j " ++ sub)%string (clock s + (1 + k))))))); [reflexivity |].
    intros k. now rewrite Z.add_assoc.
Qed.



Lemma bind_halt {A B} (m : M A) (k : A -> M B) s s1 h :
  m s = (s1, inl h) -> bind m k s = (s1, inl h).
Proof. intros E. unfold bind. rewrite E. reflexivity. Qed.

Lemma no_system_fold_m {A B} (f : B -> A -> M B) (acc : B) (l : list A) :
  (forall b a, no_system (f b a)) -> no_system (fold_m f acc l).
Proof.
  intros Hf. revert acc. induction l as [| x t IH]; intros acc; simpl;
    [apply no_system_ret | apply no_system_bind; [apply Hf | intros b; apply IH]].
Qed.

Lemma no_system_check_liveness w job chains : no_system (check_liveness w job chains).
Proof.
  unfold check_liveness. apply no_system_bind.
  - apply no_system_fold_m. intros b a.
    apply no_system_bind; [| intros r; apply no_system_ret]. unfold check_chain_running.
    apply no_system_bind; [apply no_system_sacct | intros l].
    destruct (chain_is_running l); auto with nosys.
  - intros b. destruct b; auto with nosys.
Qed.



Lemma fold_left_min_init (t : list Z) (x : Z) : fold_left Z.min t x <= x.
Proof.
  revert x. induction t as [| z t IH]; intros x; simpl; [lia |].
  specialize (IH (Z.min x z)). lia.
Qed.

Lemma fold_left_min_le (t : list Z) (x y : Z) :
  In y (x :: t) -> fold_left Z.min t x <= y.
Proof.
  intros [-> | Hy]; [apply fold_left_min_init |].
  revert x. induction t as [| z t IH]; intros x; simpl; [destruct Hy |].
  destruct Hy as [-> | Hy].
  - pose proof (fold_left_min_init t (Z.min x y)). lia.
  - apply IH. exact Hy.
Qed.

Lemma any_run_flag_spec w infile pb_args processes (l : list Z) acc s :
  fold_m (fun all_running i =>
            match fs w (generate_output_filename infile pb_args processes i ++ ".run")%string with
            | None => raise FileNotFoundError
            | Some c => ret (all_running || String.eqb (file_read c) "1")
            end) acc l s
  = (s, if existsb (fun i => match fs w (generate_output_filename infile pb_args processes i
                                           ++ ".run") with None => true | Some _ => false end) l
        then inl (Raise FileNotFoundError)
        else inr (acc || existsb (fun i => match fs w (generate_output_filename infile pb_args
                                             processes i ++ ".run") with
                                           | Some c => String.eqb (file_read c) "1"
                                           | None => false end) l)).
Proof.
  revert acc. induction l as [| x t IH]; intros acc; simpl.
  - rewrite orb_false_r. reflexivity.
  - destruct (fs w (generate_output_filename infile pb_args processes x ++ ".run")) as [c |];
      [| reflexivity].
    cbn [bind ret]. rewrite IH. simpl. rewrite orb_assoc. reflexivity.
Qed.

(** Without Slurm, when every chain's [.trace] file exists and some chain
    has fewer samples than both [MIN_SAMPLE_SIZE] and [MAX_SAMPLE_SIZE],
    no diagnostic is run and the [.run] files decide: a missing [.run] file
    raises [FileNotFoundError]; otherwise [check_convergence] returns when
    some chain's [.run] file reads exactly ["1"] and exits with code 0 when
    none does. *)
Theorem check_convergence_run_flags w py_float self infile pb_args
  (chains processes : Z) (cs : Z -> string) s
  (Ha : env w "SLURM_ARRAY_JOB_ID" = None) (Hj : env w "SLURM_JOB_ID" = None)
  (Hfs : forall i, In i (range1 chains) ->
     fs w (generate_output_filename infile pb_args processes i ++ ".trace") = Some (cs i))
  (Hlow : exists i, In i (range1 chains)
          /\ Z.of_nat (length (file_lines (cs i))) < MIN_SAMPLE_SIZE self
          /\ Z.of_nat (length (file_lines (cs i))) < MAX_SAMPLE_SIZE self) :
  snd (check_convergence w py_float self infile pb_args chains processes s)
  = if existsb (fun i => match fs w (generate_output_filename infile pb_args processes i
                                      ++ ".run") with None => true | Some _ => false end)
               (range1 chains)
    then inl (Raise FileNotFoundError)
    else if existsb (fun i => match fs w (generate_output_filename infile pb_args processes i
                                           ++ ".run") with
                              | Some c => String.eqb (file_read c) "1"
                              | None => false end) (range1 chains)
    then inr tt else inl (Exit 0).
Proof.
  destruct Hlow as [i0 [Hi0 [Hmin Hmax]]].
  assert (Hc : 1 <= chains) by (apply in_range1 in Hi0; lia).
  destruct (range1_first chains Hc) as [t Ht].
  assert (Hm : fold_left Z.min (List.map (fun i => Z.of_nat (length (file_lines (cs i)))) t)
                 (Z.of_nat (length (file_lines (cs 1))))
               <= Z.of_nat (length (file_lines (cs i0)))).
  { apply fold_left_min_le. rewrite Ht in Hi0. destruct Hi0 as [<- | Hi0]; [left; reflexivity |].
    right. apply (in_map (fun i => Z.of_nat (length (file_lines (cs i))))). exact Hi0. }
  unfold check_convergence, get_slurm_job_id. rewrite Ha, Hj. cbn [bind ret uses_slurm].
  unfold count_samples. erewrite bind_ok by (apply map_m_count_spec; exact Hfs).
  rewrite Ht. cbn [List.map py_min]. unfold bind at 1, ret at 1.
  match goal with |- context [MIN_SAMPLE_SIZE self <=? ?m] =>
    replace (MIN_SAMPLE_SIZE self <=? m) with false by (symmetry; apply Z.leb_gt; lia) end.
  match goal with |- context [MAX_SAMPLE_SIZE self <=? ?m] =>
    replace (MAX_SAMPLE_SIZE self <=? m) with false by (symmetry; apply Z.leb_gt; lia) end.
  unfold any_run_flag. rewrite <- Ht. unfold bind at 1. rewrite any_run_flag_spec.
  destruct (existsb _ (range1 chains)); [reflexivity |].
  destruct (existsb _ (range1 chains)); reflexivity.
Qed.

Lemma check_convergence_run_flags_witness :
  (env (diag_world "aln.phy" "-cat -gtr" 1 3 5 "" "") "SLURM_ARRAY_JOB_ID" = None /\ env (diag_world "aln.phy" "-cat -gtr" 1 3 5 "" "") "SLURM_JOB_ID" = None
   /\ (forall i, In i (range1 2) ->
         fs (diag_world "aln.phy" "-cat -gtr" 1 3 5 "" "") (generate_output_filename "aln.phy" "-cat -gtr" 1 i ++ ".trace") = Some ((fun i => if i =? 1 then trace_file 3 else trace_file 5) i))
   /\ (exists i, In i (range1 2)
          /\ Z.of_nat (length (file_lines ((fun i => if i =? 1 then trace_file 3 else trace_file 5) i))) < MIN_SAMPLE_SIZE default_starter
          /\ Z.of_nat (length (file_lines ((fun i => if i =? 1 then trace_file 3 else trace_file 5) i))) < MAX_SAMPLE_SIZE default_starter))
  /\ snd (check_convergence (diag_world "aln.phy" "-cat -gtr" 1 3 5 "" "") dec_float default_starter "aln.phy" "-cat -gtr" 2 1 init)
     = if existsb (fun i => match fs (diag_world "aln.phy" "-cat -gtr" 1 3 5 "" "") (generate_output_filename "aln.phy" "-cat -gtr" 1 i
                                         ++ ".run") with None => true | Some _ => false end)
                  (range1 2)
       then inl (Raise FileNotFoundError)
       else if existsb (fun i => match fs (diag_world "aln.phy" "-cat -gtr" 1 3 5 "" "") (generate_output_filename "aln.phy" "-cat -gtr" 1 i
                                              ++ ".run") with
                                 | Some c => String.eqb (file_read c) "1"
                                 | None => false end) (range1 2)
       then inr tt else inl (Exit 0).
Proof.
  assert (Hfs : forall i, In i (range1 2) ->
            fs (diag_world "aln.phy" "-cat -gtr" 1 3 5 "" "") (generate_output_filename "aln.phy" "-cat -gtr" 1 i ++ ".trace") = Some ((fun i => if i =? 1 then trace_file 3 else trace_file 5) i))
    by (intros i [<- | [<- | []]]; vm_compute; reflexivity).
  assert (Hlow : exists i, In i (range1 2)
            /\ Z.of_nat (length (file_lines ((fun i => if i =? 1 then trace_file 3 else trace_file 5) i))) < MIN_SAMPLE_SIZE default_starter
            /\ Z.of_nat (length (file_lines ((fun i => if i =? 1 then trace_file 3 else trace_file 5) i))) < MAX_SAMPLE_SIZE default_starter)
    by (exists 1; split; [left; reflexivity | vm_compute; split; reflexivity]).
  split; [repeat split; [exact Hfs | exact Hlow] |].
  apply (check_convergence_run_flags (diag_world "aln.phy" "-cat -gtr" 1 3 5 "" "") dec_float default_starter "aln.phy" "-cat -gtr" 2 1 (fun i => if i =? 1 then trace_file 3 else trace_file 5) init);
    [reflexivity | reflexivity | exact Hfs | exact Hlow].
Defined.

Lemma range1_nonpos (n : Z) : n <= 0 -> range1 n = [].
Proof. intros Hn. unfold range1. replace (Z.to_nat n) with O by lia. reflexivity. Qed.

(** With no chain to check ([chains <= 0]) and a job id that can be built,
    [check_convergence] ends in Python's [min] of an empty list: it raises
    [ValueError] before any effect (no [sacct] query, no file read, no
    command). *)
Theorem check_convergence_no_chains w py_float self infile pb_args (chains processes : Z) s
  (Hc : chains <= 0)
  (Henv : env w "SLURM_ARRAY_JOB_ID" = None \/ env w "SLURM_ARRAY_TASK_ID" <> None) :
  check_convergence w py_float self infile pb_args chains processes s
  = (s, inl (Raise ValueError)).
Proof.
  assert (Hjob : exists job, get_slurm_job_id w s = (s, inr job)).
  { unfold get_slurm_job_id. destruct (env w "SLURM_ARRAY_JOB_ID") as [a |].
    - destruct Henv as [Hn | Ht]; [discriminate |].
      destruct (env w "SLURM_ARRAY_TASK_ID") as [t |]; [| contradiction Ht; reflexivity].
      eexists. reflexivity.
    - eexists. reflexivity. }
  destruct Hjob as [job Hjob].
  unfold check_convergence. erewrite bind_ok by exact Hjob.
  unfold count_samples. rewrite range1_nonpos by exact Hc.
  destruct (uses_slurm job) as [j |].
  - unfold check_liveness. rewrite range1_nonpos by exact Hc. reflexivity.
  - reflexivity.
Qed.

Lemma check_convergence_no_chains_witness :
  (0 <= 0 /\ (env world_empty "SLURM_ARRAY_JOB_ID" = None
              \/ env world_empty "SLURM_ARRAY_TASK_ID" <> None))
  /\ check_convergence world_empty dec_float default_starter "aln.phy" "-cat -gtr" 0 1 init
     = (init, inl (Raise ValueError)).
Proof.
  split; [split; [lia | left; reflexivity] |].
  apply check_convergence_no_chains; [lia | left; reflexivity].
Defined.

Section ExitCodes.

Variable P : Z -> Prop.

Lemma exit_codes_ret {A} (a : A) : exit_codes P (ret a).
Proof. intros s c H. discriminate H. Qed.

Lemma exit_codes_raise {A} e : exit_codes P (@raise A e).
Proof. intros s c H. discriminate H. Qed.

Lemma exit_codes_emit e : exit_codes P (emit e).
Proof. intros s c H. discriminate H. Qed.

Lemma exit_codes_print msg : exit_codes P (print msg).
Proof. apply exit_codes_emit. Qed.

Lemma exit_codes_system cmd : exit_codes P (system cmd).
Proof. apply exit_codes_emit. Qed.

Lemma exit_codes_sleep n : exit_codes P (sleep n).
Proof. intros s c H. discriminate H. Qed.

Lemma exit_codes_popen w cmd : exit_codes P (popen w cmd).
Proof. intros s c H. discriminate H. Qed.

Lemma exit_codes_sys_exit {A} c : P c -> exit_codes P (@sys_exit A c).
Proof. intros Hc s c' H. injection H as <-. exact Hc. Qed.

Lemma exit_codes_bind {A B} (m : M A) (k : A -> M B) :
  exit_codes P m -> (forall a, exit_codes P (k a)) -> exit_codes P (bind m k).
Proof.
  intros Hm Hk s c H. unfold bind in H.
  destruct (m s) as [s1 [h | a]] eqn:E.
  - simpl in H. injection H as ->. apply (Hm s). rewrite E. reflexivity.
  - exact (Hk a s1 c H).
Qed.

Lemma exit_codes_for_each {A} (l : list A) (f : A -> M unit) :
  (forall x, exit_codes P (f x)) -> exit_codes P (for_each l f).
Proof.
  intros Hf. induction l as [| x t IH]; simpl;
    [apply exit_codes_ret | apply exit_codes_bind; [apply Hf | intros; exact IH]].
Qed.

Lemma exit_codes_fold_m {A B} (f : B -> A -> M B) (acc : B) (l : list A) :
  (forall b a, exit_codes P (f b a)) -> exit_codes P (fold_m f acc l).
Proof.
  intros Hf. revert acc. induction l as [| x t IH]; intros acc; simpl;
    [apply exit_codes_ret | apply exit_codes_bind; [apply Hf | intros b; apply IH]].
Qed.

Lemma exit_codes_map_m {A B} (f : A -> M B) (l : list A) :
  (forall a, exit_codes P (f a)) -> exit_codes P (map_m f l).
Proof.
  intros Hf. induction l as [| x t IH]; simpl;
    [apply exit_codes_ret |].
  apply exit_codes_bind; [apply Hf | intros y].
  apply exit_codes_bind; [exact IH | intros ys; apply exit_codes_ret].
Qed.

End ExitCodes.

Create HintDb exits.
#[export] Hint Resolve exit_codes_ret exit_codes_raise exit_codes_print exit_codes_system
  exit_codes_sleep exit_codes_popen exit_codes_bind exit_codes_for_each exit_codes_fold_m
  exit_codes_map_m : exits.

Ltac solve_exits :=
  repeat match goal with
  | |- exit_codes _ (bind _ _) => apply exit_codes_bind; [| intros ?]
  | |- exit_codes _ (if ?b then _ else _) => destruct b
  | |- exit_codes _ (match ?x with _ => _ end) => destruct x
  | |- exit_codes _ (sys_exit _) => apply exit_codes_sys_exit
  | |- exit_codes _ (print _) => apply exit_codes_print
  | |- exit_codes _ (system _) => apply exit_codes_system
  | |- exit_codes _ (sleep _) => apply exit_codes_sleep
  | |- exit_codes _ (popen _ _) => apply exit_codes_popen
  | |- exit_codes _ (ret _) => apply exit_codes_ret
  | |- exit_codes _ (raise _) => apply exit_codes_raise
  end; try (cbv beta; lia).

Lemma exit_codes_job P w : exit_codes P (get_slurm_job_id w).
Proof. unfold get_slurm_job_id. solve_exits. Qed.

Lemma exit_codes_sacct P w sub : exit_codes P (sacct_first_line w sub).
Proof. unfold sacct_first_line. solve_exits. Qed.

Lemma exit_codes_wait w fuel sub waited max_wait :
  exit_codes (fun c => c = 3) (wait_for_srun w fuel sub waited max_wait).
Proof.
  revert waited. induction fuel as [| f IH]; intros waited; simpl; [solve_exits |].
  apply exit_codes_bind; [solve_exits | intros []].
  apply exit_codes_bind; [apply exit_codes_sacct | intros first_line].
  solve_exits. apply IH.
Qed.

(** [start_pb_jobs] exits only through the Slurm wait, with code 3: any
    [sys.exit] it performs passes 3. *)
Theorem start_pb_jobs_exit_code w infile pb_args (chains processes : Z) s (c : Z)
  (Hc : snd (start_pb_jobs w infile pb_args chains processes s) = inl (Exit c)) :
  c = 3.
Proof.
  revert s c Hc. change (exit_codes (fun c => c = 3) (start_pb_jobs w infile pb_args chains processes)).
  apply exit_codes_for_each. intros i. unfold start_chain.
  apply exit_codes_bind; [solve_exits | intros []].
  apply exit_codes_bind; [solve_exits | intros []].
  apply exit_codes_bind; [apply exit_codes_job | intros job].
  destruct (uses_slurm job); [apply exit_codes_wait | solve_exits].
Qed.

Lemma start_pb_jobs_exit_code_witness :
  snd (start_pb_jobs world_sacct_silent "aln.phy" "-cat -gtr" 1 1 init) = inl (Exit 3) /\ 3 = 3.
Proof.
  assert (H : snd (start_pb_jobs world_sacct_silent "aln.phy" "-cat -gtr" 1 1 init) = inl (Exit 3))
    by (vm_compute; reflexivity).
  split; [exact H | exact (start_pb_jobs_exit_code _ _ _ _ _ _ _ H)].
Defined.

Lemma exit_codes_bp_scan P py_float self lines r : exit_codes P (bp_scan py_float self lines r).
Proof.
  revert r. induction lines as [| line t IH]; intros r; simpl; [solve_exits |].
  solve_exits; apply IH.
Qed.

Lemma exit_codes_tr_scan P py_float self lines r n : exit_codes P (tr_scan py_float self lines r n).
Proof.
  revert r n. induction lines as [| line t IH]; intros r n; simpl; [solve_exits |].
  solve_exits; apply IH.
Qed.

(** [check_convergence] exits only with code 4 (a chain is not running) or
    code 0 (converged, sample cap reached, or no chain running any more):
    any [sys.exit] it performs passes 0 or 4. *)
Theorem check_convergence_exit_codes w py_float self infile pb_args (chains processes : Z) s
  (c : Z) (Hc : snd (check_convergence w py_float self infile pb_args chains processes s) = inl (Exit c)) :
  c = 0 \/ c = 4.
Proof.
  revert s c Hc.
  change (exit_codes (fun c => c = 0 \/ c = 4)
            (check_convergence w py_float self infile pb_args chains processes)).
  unfold check_convergence.
  apply exit_codes_bind; [apply exit_codes_job | intros job].
  apply exit_codes_bind.
  { destruct (uses_slurm job) as [j |]; [| solve_exits].
    unfold check_liveness. apply exit_codes_bind.
    - apply exit_codes_fold_m. intros b a. apply exit_codes_bind; [| intros; solve_exits].
      unfold check_chain_running. apply exit_codes_bind; [apply exit_codes_sacct | intros].
      solve_exits.
    - intros b. solve_exits. }
  intros [].
  apply exit_codes_bind.
  { apply exit_codes_map_m. intros i. unfold count_chain. solve_exits. }
  intros counts. apply exit_codes_bind; [unfold py_min; solve_exits | intros m].
  destruct (MIN_SAMPLE_SIZE self <=? m).
  - unfold evaluate.
    apply exit_codes_bind; [solve_exits | intros bp].
    apply exit_codes_bind; [solve_exits | intros []].
    apply exit_codes_bind; [apply exit_codes_bp_scan | intros r].
    apply exit_codes_bind; [solve_exits | intros tr].
    apply exit_codes_bind; [solve_exits | intros []].
    apply exit_codes_bind; [apply exit_codes_tr_scan | intros [r1 n1]].
    destruct (converged r r1 n1); [| solve_exits].
    apply exit_codes_bind; [unfold stop_all; apply exit_codes_for_each; intros; solve_exits |].
    intros []. solve_exits.
  - destruct (MAX_SAMPLE_SIZE self <=? m); [solve_exits |].
    apply exit_codes_bind; [| intros b; solve_exits].
    unfold any_run_flag. apply exit_codes_fold_m. intros b a. solve_exits.
Qed.

Lemma check_convergence_exit_codes_witness :
  snd (check_convergence world_sacct_silent dec_float default_starter "aln.phy" "-cat -gtr" 2 1 init)
  = inl (Exit 4) /\ (4 = 0 \/ 4 = 4).
Proof.
  assert (H : snd (check_convergence world_sacct_silent dec_float default_starter
                     "aln.phy" "-cat -gtr" 2 1 init) = inl (Exit 4))
    by (vm_compute; reflexivity).
  split; [exact H | exact (check_convergence_exit_codes _ _ _ _ _ _ _ _ _ H)].
Defined.

(** When the last field of every [maxdiff] line of the [bpcomp] report
    parses as a float, the scan of the report yields 1 if some [maxdiff]
    line has a value within [BPCOMP_MAXDIFF] (inclusive) and leaves
    [bp_res] unchanged otherwise; later lines above the threshold do not
    reset it. *)
Theorem bp_scan_result py_float self (lines : list string) (r : Z) s
  (Hparse : forall line, In line lines -> startswith line "maxdiff" = true ->
              py_float (last (split_ws (rstrip line)) ""%string) <> None) :
  snd (bp_scan py_float self lines r s)
  = inr (if existsb (fun line => startswith line "maxdiff"
                       && match py_float (last (split_ws (rstrip line)) ""%string) with
                          | Some v => Qle_bool v (BPCOMP_MAXDIFF self)
                          | None => false
                          end) lines
         then 1 else r).
Proof.
  revert r s. induction lines as [| line t IH]; intros r s; [reflexivity |].
  assert (IH' := IH (fun l Hl => Hparse l (or_intror Hl))).
  cbn [bp_scan existsb]. cbn [bind print emit].
  destruct (startswith line "maxdiff") eqn:Es; cbn [andb orb]; [| apply IH'].
  destruct (py_float (last (split_ws (rstrip line)) ""%string)) as [v |] eqn:Ev;
    [| contradiction (Hparse line (or_introl eq_refl) Es)].
  destruct (Qle_bool v (BPCOMP_MAXDIFF self)); cbn [bind print emit orb].
  - rewrite IH'. destruct (existsb _ t); reflexivity.
  - apply IH'.
Qed.

Lemma bp_scan_result_witness :
  (forall line, In line (splitlines bp_scenario_A) -> startswith line "maxdiff" = true ->
     dec_float (last (split_ws (rstrip line)) ""%string) <> None)
  /\ snd (bp_scan dec_float default_starter (splitlines bp_scenario_A) 0 init)
     = inr (if existsb (fun line => startswith line "maxdiff"
                          && match dec_float (last (split_ws (rstrip line)) ""%string) with
                             | Some v => Qle_bool v (BPCOMP_MAXDIFF default_starter)
                             | None => false
                             end) (splitlines bp_scenario_A)
            then 1 else 0).
Proof.
  assert (H : forall line, In line (splitlines bp_scenario_A) -> startswith line "maxdiff" = true ->
                dec_float (last (split_ws (rstrip line)) ""%string) <> None).
  { vm_compute. intros line [<- | []] _. discriminate. }
  split; [exact H | apply bp_scan_result; exact H].
Defined.

(** When every parameter row of the [tracecomp] report (at least two
    fields, first field not ["name"]) has a third field and its second and
    third fields parse as floats, the scan adds one to [tr_line_number] per
    parameter row and adds to [tr_res] between 0 and 2 per parameter row
    (one per satisfied sub-check). *)
Theorem tr_scan_counts py_float self (lines : list string) (r n : Z) s
  (Hparse : forall line, In line lines -> is_parameter_row line = true ->
     py_float (nth 1 (split_ws (rstrip line)) ""%string) <> None
     /\ exists f2, nth_error (split_ws (rstrip line)) 2 = Some f2 /\ py_float f2 <> None) :
  exists r', snd (tr_scan py_float self lines r n s)
             = inr (r', n + Z.of_nat (length (List.filter is_parameter_row lines)))
          /\ r <= r' <= r + 2 * Z.of_nat (length (List.filter is_parameter_row lines)).
Proof.
  revert r n s. induction lines as [| line t IH]; intros r n s.
  { exists r. cbn [tr_scan ret snd List.filter length]. change (Z.of_nat 0) with 0.
    rewrite Z.add_0_r. split; [reflexivity | lia]. }
  assert (IH' := IH (fun l Hl => Hparse l (or_intror Hl))).
  specialize (Hparse line (or_introl eq_refl)).
  cbn [tr_scan List.filter]. cbn [bind print emit].
  destruct (is_parameter_row line) eqn:Ep.
  2:{ unfold is_parameter_row in Ep.
      destruct ((1 <? length (split_ws (rstrip line)))%nat); [| apply IH'].
      destruct (String.eqb (nth 0 (split_ws (rstrip line)) ""%string) "name");
        [apply IH' | discriminate Ep]. }
  destruct (Hparse eq_refl) as [H1 [f2 [H2 H3]]].
  unfold is_parameter_row in Ep. apply andb_true_iff in Ep as [El En].
  apply negb_true_iff in En. rewrite El, En.
  destruct (py_float (nth 1 (split_ws (rstrip line)) ""%string)) as [eff |];
    [| contradiction H1; reflexivity].
  rewrite H2. destruct (py_float f2) as [rel |]; [| contradiction H3; reflexivity].
  destruct (Qle_bool (TRCOMP_EFFSIZE self) eff), (Qle_bool rel (TRCOMP_RELDIFF self));
    cbn [bind print emit ret length];
    match goal with |- context [tr_scan py_float self t ?r1 ?n1 ?s1] =>
      destruct (IH' r1 n1 s1) as [r' [E B]] end;
    exists r'; rewrite E; (split; [f_equal; f_equal; lia | lia]).
Qed.

Lemma tr_scan_counts_witness :
  (forall line, In line (splitlines tr_scenario_A) -> is_parameter_row line = true ->
     dec_float (nth 1 (split_ws (rstrip line)) ""%string) <> None
     /\ exists f2, nth_error (split_ws (rstrip line)) 2 = Some f2 /\ dec_float f2 <> None)
  /\ exists r', snd (tr_scan dec_float default_starter (splitlines tr_scenario_A) 0 0 init)
                = inr (r', 0 + Z.of_nat (length (List.filter is_parameter_row (splitlines tr_scenario_A))))
             /\ 0 <= r' <= 0 + 2 * Z.of_nat (length (List.filter is_parameter_row
                                                      (splitlines tr_scenario_A))).
Proof.
  assert (H : forall line, In line (splitlines tr_scenario_A) -> is_parameter_row line = true ->
     dec_float (nth 1 (split_ws (rstrip line)) ""%string) <> None
     /\ exists f2, nth_error (split_ws (rstrip line)) 2 = Some f2 /\ dec_float f2 <> None).
  { vm_compute. intros line [<- | [<- | [<- | []]]] Hp;
      [discriminate Hp | | ]; (split; [discriminate | eexists; split; [reflexivity | discriminate]]). }
  split; [exact H | apply tr_scan_counts; exact H].
Defined.

Ltac solve_nosys :=
  repeat match goal with
  | |- no_system (bind _ _) => apply no_system_bind; [| intros ?]
  | |- no_system (if ?b then _ else _) => destruct b
  | |- no_system (match ?x with _ => _ end) => destruct x
  end; auto with nosys.

Lemma no_system_tr_scan py_float self lines r n : no_system (tr_scan py_float self lines r n).
Proof.
  revert r n. induction lines as [| line t IH]; intros r n; simpl; [solve_nosys |].
  solve_nosys; apply IH.
Qed.

Lemma quiet_step {A} (m : M A) s :
  no_system m -> exit_codes (fun _ => False) m ->
  (exists s1 a, m s = (s1, inr a) /\ systems (log s1) = systems (log s))
  \/ (exists s1 e, m s = (s1, inl (Raise e)) /\ systems (log s1) = systems (log s)).
Proof.
  intros Hn He. specialize (Hn s). specialize (He s).
  destruct (m s) as [s1 [[c | e] | a]] eqn:E; simpl in Hn.
  - destruct (He c eq_refl).
  - right. exists s1, e. split; [reflexivity | exact Hn].
  - left. exists s1, a. split; [reflexivity | exact Hn].
Qed.

(** [evaluate] (the diagnostics step of [check_convergence]) either stops
    every chain with [stoppb], in chain order, and then exits with code 0,
    or it neither exits nor issues any command through [os.system]. *)
Theorem evaluate_exit_after_stoppb w py_float self infile pb_args (chains processes m : Z) s :
  (snd (evaluate w py_float self infile pb_args chains processes m s) = inl (Exit 0)
   /\ systems (log (fst (evaluate w py_float self infile pb_args chains processes m s)))
      = systems (log s) ++ stoppb_commands infile pb_args chains processes)
  \/ ((forall c, snd (evaluate w py_float self infile pb_args chains processes m s) <> inl (Exit c))
      /\ systems (log (fst (evaluate w py_float self infile pb_args chains processes m s)))
         = systems (log s)).
Proof.
  unfold evaluate. cbn [bind popen print emit].
  match goal with |- context [bind (bp_scan py_float self ?ls 0) ?k ?s2] =>
    destruct (quiet_step (bp_scan py_float self ls 0) s2
                (fun s => proj2 (bp_scan_clock_systems py_float self ls 0 s))
                (exit_codes_bp_scan _ py_float self ls 0))
      as [[s3 [bp [E3 H3]]] | [s3 [e [E3 H3]]]];
    [rewrite (bind_ok _ k _ _ _ E3) | rewrite (bind_halt _ k _ _ _ E3)] end.
  2:{ right. cbn [fst snd]. split; [discriminate |]. rewrite H3. cbn [log].
      rewrite !systems_app. simpl. rewrite !app_nil_r. reflexivity. }
  cbn [bind popen print emit].
  match goal with |- context [bind (tr_scan py_float self ?ls 0 0) ?k ?s4] =>
    destruct (quiet_step (tr_scan py_float self ls 0 0) s4
                (no_system_tr_scan py_float self ls 0 0)
                (exit_codes_tr_scan _ py_float self ls 0 0))
      as [[s5 [[tr n] [E5 H5]]] | [s5 [e [E5 H5]]]];
    [rewrite (bind_ok _ k _ _ _ E5) | rewrite (bind_halt _ k _ _ _ E5)] end.
  2:{ right. cbn [fst snd]. split; [discriminate |]. rewrite H5. cbn [log].
      rewrite !systems_app, !app_nil_r. rewrite H3. cbn [log].
      rewrite !systems_app. simpl. rewrite !app_nil_r. reflexivity. }
  assert (Hs5 : systems (log s5) = systems (log s)).
  { rewrite H5. cbn [log]. rewrite !systems_app, H3. cbn [log]. rewrite !systems_app.
    simpl. rewrite !app_nil_r. reflexivity. }
  destruct (converged bp tr n).
  - left. destruct (stop_all_spec infile pb_args chains processes s5) as [s6 [E6 H6]].
    rewrite (bind_ok _ _ _ _ _ E6). cbn [sys_exit fst snd].
    split; [reflexivity | rewrite H6, Hs5; reflexivity].
  - right. cbn [ret fst snd]. split; [discriminate | exact Hs5].
Qed.

Lemma str_app_nil_r (s : string) : (s ++ "")%string = s.
Proof. induction s as [| c s IH]; simpl; [reflexivity | now rewrite IH]. Qed.


